(** * Heliosinger operator scripts: a shallow embedding

    Two scripts are modelled: [scripts/check_stream_health.py] (module
    [HealthPoller]) and [scripts/obs_setup_helper.py] (module
    [SetupHelper]).

    Modelling conventions.
    - A Python [str] is a [string]; one [ascii] stands for one character
      (exact for the ASCII texts the scripts build; the glyphs of the
      status lines are kept as their UTF-8 bytes).
    - A Python [int] is a [Z].
    - A call that may raise returns an [exec]; what it prints, fetches,
      writes or sleeps is appended to a trace of [event]s.  The pair of
      both is the monad [M].
    - The answers of the outside world (HTTP responses, clock readings,
      subprocess results, the file system) are arguments of the functions
      that ask for them. *)

From Stdlib Require Import ZArith QArith Qround String Ascii List Bool Lia Lqa.
From Stdlib Require Import DecimalString.
From stdpp Require Import base gmap strings.
Import ListNotations.
Set Warnings "-register-all".

(** ** Python values and text *)

Definition py_str (n : Z) : string := NilZero.string_of_int (Z.to_int n).

(** [s[:n]] *)
Fixpoint str_slice_to (n : nat) (s : string) : string :=
  match n, s with
  | S n', String c s' => String c (str_slice_to n' s')
  | _, _ => EmptyString
  end.

(** [s * n] *)
Fixpoint str_mul (s : string) (n : nat) : string :=
  match n with
  | O => EmptyString
  | S n' => s +:+ str_mul s n'
  end.

Fixpoint str_prefix (p s : string) : bool :=
  match p, s with
  | EmptyString, _ => true
  | String a p', String b s' => Ascii.eqb a b && str_prefix p' s'
  | String _ _, EmptyString => false
  end.

(** [p in s] *)
Fixpoint str_in (p s : string) : bool :=
  str_prefix p s
  || match s with
     | EmptyString => false
     | String _ s' => str_in p s'
     end.

(** [s.split('/')[-1]] *)
Fixpoint last_segment_from (acc s : string) : string :=
  match s with
  | EmptyString => acc
  | String c s' =>
      if Ascii.eqb c "/"%char then last_segment_from EmptyString s'
      else last_segment_from (acc +:+ String c EmptyString) s'
  end.

Definition last_segment (s : string) : string := last_segment_from EmptyString s.

Definition nl : string := String (ascii_of_nat 10) EmptyString.

(** A [dict] with [str] keys keeps insertion order; assigning to a key that
    is present replaces its value in place. *)
Definition dict (V : Type) : Type := list (string * V).

Fixpoint dict_set {V} (k : string) (v : V) (d : dict V) : dict V :=
  match d with
  | [] => [(k, v)]
  | (k', v') :: d' =>
      if String.eqb k k' then (k, v) :: d' else (k', v') :: dict_set k v d'
  end.

Fixpoint dict_get {V} (k : string) (d : dict V) : option V :=
  match d with
  | [] => None
  | (k', v') :: d' => if String.eqb k k' then Some v' else dict_get k d'
  end.

Definition dict_keys {V} (d : dict V) : list string := map fst d.
Definition dict_values {V} (d : dict V) : list V := map snd d.

(** ** Exceptions and effects *)

(** The exception classes the scripts tell apart.  [URLError] is
    [urllib.error.URLError] (and its subclass [HTTPError]), [Exception] any
    other subclass of [Exception]; the payload is [str(e)].
    [KeyboardInterrupt] derives from [BaseException] only. *)
Inductive exn : Type :=
| URLError (text : string)
| Exception (text : string)
| KeyboardInterrupt.

Definition is_URLError (e : exn) : bool :=
  match e with URLError _ => true | _ => false end.

Definition is_Exception (e : exn) : bool :=
  match e with KeyboardInterrupt => false | _ => true end.

Definition str_exn (e : exn) : string :=
  match e with
  | URLError text | Exception text => text
  | KeyboardInterrupt => EmptyString
  end.

Inductive exec (A : Type) : Type :=
| Return (a : A)
| Raise (e : exn).
Arguments Return {A} a.
Arguments Raise {A} e.

Inductive event : Type :=
| Print (text : string)
| Get (url : string)
| WriteFile (path content : string)
| Sleep (seconds : Z).

Definition M (A : Type) : Type := (exec A * list event)%type.

Definition ret {A} (a : A) : M A := (Return a, []).
Definition raise {A} (e : exn) : M A := (Raise e, []).
Definition emit (ev : event) : M unit := (Return tt, [ev]).
Definition print (text : string) : M unit := emit (Print text).

Definition bind {A B} (m : M A) (k : A -> M B) : M B :=
  match m with
  | (Return a, tr) => let (r, tr') := k a in (r, tr ++ tr')
  | (Raise e, tr) => (Raise e, tr)
  end.

(** [try: m  except <classes caught by handler>: ...] *)
Definition try_except {A} (m : M A) (handler : exn -> option (M A)) : M A :=
  match m with
  | (Raise e, tr) =>
      match handler e with
      | Some h => let (r, tr') := h in (r, tr ++ tr')
      | None => (Raise e, tr)
      end
  | done => done
  end.

Declare Scope py_scope.
Delimit Scope py_scope with py.
Notation "'do' x <- m ; k" := (bind m (fun x => k))
  (at level 10, x name, m at level 100, k at level 200) : py_scope.
Notation "m ;; k" := (bind m (fun _ => k))
  (at level 100, k at level 200, right associativity) : py_scope.

Fixpoint for_each {A} (xs : list A) (body : A -> M unit) : M unit :=
  match xs with
  | [] => ret tt
  | x :: xs' => bind (body x) (fun _ => for_each xs' body)
  end.

Definition result {A} (m : M A) : exec A := fst m.
Definition trace {A} (m : M A) : list event := snd m.

Definition printed (text : string) (tr : list event) : bool :=
  existsb (fun ev => match ev with Print t => String.eqb t text | _ => false end) tr.

Module Colors.
Definition ESC : string := String (ascii_of_nat 27) EmptyString.
Definition GREEN : string := ESC +:+ "[92m".
Definition YELLOW : string := ESC +:+ "[93m".
Definition RED : string := ESC +:+ "[91m".
Definition BLUE : string := ESC +:+ "[94m".
Definition BOLD : string := ESC +:+ "[1m".
Definition RESET : string := ESC +:+ "[0m".
End Colors.

(** An HTTP response, as far as the scripts read it. *)
Record response : Type := { status : Z }.

(** [urllib.request.urlopen(url, timeout=...)]: the GET is issued, and the
    world answers with a response or an exception. *)
Definition urlopen (answer : exec response) (url : string) : M response :=
  (answer, [Get url]).

(** * scripts/check_stream_health.py *)
Module HealthPoller.
Import Colors.
Local Open Scope py_scope.

Definition STREAM_URL : string := "http://localhost:5173/stream".
Definition HEALTH_CHECK_INTERVAL : Z := 30.

Definition check_stream_accessible (answer : exec response) : M (bool * string) :=
  try_except
    (do response <- urlopen answer STREAM_URL;
     if (status response =? 200)%Z
     then ret (true, "Stream page is accessible")
     else ret (false, "Stream returned status " +:+ py_str (status response)))
    (fun e =>
       if is_URLError e
       then Some (ret (false, "Cannot connect to stream: " +:+ str_exn e))
       else if is_Exception e
       then Some (ret (false, "Error checking stream: " +:+ str_exn e))
       else None).

Definition endpoints : list string :=
  [ "http://localhost:5173/api/space-weather/comprehensive";
    "http://localhost:5173/api/solar-wind/current" ].

Definition probe_endpoint (api : string -> exec response) (endpoint : string)
    (results : dict string) : M (dict string) :=
  try_except
    (do response <- urlopen (api endpoint) endpoint;
     if (status response =? 200)%Z
     then ret (dict_set endpoint "OK" results)
     else ret (dict_set endpoint ("Status " +:+ py_str (status response)) results))
    (fun e =>
       if is_Exception e
       then Some (ret (dict_set endpoint ("Error: " +:+ str_slice_to 50 (str_exn e)) results))
       else None).

Fixpoint probe_endpoints (api : string -> exec response) (todo : list string)
    (results : dict string) : M (dict string) :=
  match todo with
  | [] => ret results
  | endpoint :: todo' =>
      do results' <- probe_endpoint api endpoint results;
      probe_endpoints api todo' results'
  end.

Definition check_api_endpoints (api : string -> exec response) : M (dict string) :=
  probe_endpoints api endpoints [].

(** [timestamp] is [datetime.now().strftime("%H:%M:%S")] as read by the call. *)
Definition status_line (timestamp status message : string) : string :=
  if String.eqb status "OK"
  then GREEN +:+ "[" +:+ timestamp +:+ "] ✅ " +:+ message +:+ RESET
  else if String.eqb status "WARNING"
  then YELLOW +:+ "[" +:+ timestamp +:+ "] ⚠️  " +:+ message +:+ RESET
  else RED +:+ "[" +:+ timestamp +:+ "] ❌ " +:+ message +:+ RESET.

Definition print_status (timestamp status message : string) : M unit :=
  print (status_line timestamp status message).

(** [x % m] on a float clock reading [x >= 0] and a positive int [m]: the
    remainder is computed exactly, so a rational models it. *)
Definition float_mod (x : Q) (m : Z) : Q :=
  (x - inject_Z (m * Qfloor (x / inject_Z m)))%Q.

Definition Qlt_bool (a b : Q) : bool := negb (Qle_bool b a).

(** [time.time() % (HEALTH_CHECK_INTERVAL * 2) < HEALTH_CHECK_INTERVAL] *)
Definition api_gate (time_time : Q) : bool :=
  Qlt_bool (float_mod time_time (HEALTH_CHECK_INTERVAL * 2))
           (inject_Z HEALTH_CHECK_INTERVAL).

Inductive sleep_outcome : Type := Slept | SleepInterrupted.

Definition time_sleep (o : sleep_outcome) (seconds : Z) : M unit :=
  match o with
  | Slept => emit (Sleep seconds)
  | SleepInterrupted => (Raise KeyboardInterrupt, [Sleep seconds])
  end.

(** What the world answers during one iteration of the loop. *)
Record tick : Type := {
  primary : exec response;          (* urlopen(STREAM_URL) *)
  now_primary : string;             (* clock read by the first print_status *)
  now_advisory : string;            (* clock read by the advisory print_status *)
  time_time : Q;                    (* time.time() at the gate *)
  api : string -> exec response;    (* urlopen(endpoint) *)
  now_api : string -> string;       (* clock read when an endpoint's line is printed *)
  sleep : sleep_outcome             (* time.sleep(HEALTH_CHECK_INTERVAL) *)
}.

Definition ADVISORY : string := "Multiple consecutive failures detected!".
Definition ADVISORY_HINT : string :=
  YELLOW +:+ "   Consider restarting the dev server" +:+ RESET.

(** Lines 79-89: the primary probe and the counter update. *)
Definition probe_step (t : tick) (consecutive_failures : Z) : M Z :=
  do probe <- check_stream_accessible (primary t);
  let '(accessible, message) := probe in
  if accessible : bool then
    print_status (now_primary t) "OK" message;;
    ret 0%Z
  else
    print_status (now_primary t) "ERROR" message;;
    let consecutive_failures := (consecutive_failures + 1)%Z in
    (if (3 <=? consecutive_failures)%Z then
       print_status (now_advisory t) "ERROR" ADVISORY;;
       print ADVISORY_HINT
     else ret tt);;
    ret consecutive_failures.

(** Lines 91-98: the gated secondary probes. *)
Definition api_step (t : tick) : M unit :=
  if api_gate (time_time t) then
    do api_results <- check_api_endpoints (api t);
    for_each api_results (fun '(endpoint, result) =>
      if String.eqb result "OK"
      then print_status (now_api t endpoint) "OK"
             ("API endpoint OK: " +:+ last_segment endpoint)
      else print_status (now_api t endpoint) "WARNING"
             ("API issue: " +:+ last_segment endpoint +:+ " - " +:+ result))
  else ret tt.

(** One pass through the body of [while True]. *)
Definition iteration (t : tick) (consecutive_failures : Z) : M Z :=
  do consecutive_failures <- probe_step t consecutive_failures;
  api_step t;;
  time_sleep (sleep t) HEALTH_CHECK_INTERVAL;;
  ret consecutive_failures.

(** The loop run against the answers of finitely many iterations.
    [Return n] means: still looping, with the counter at [n]. *)
Fixpoint loop (ticks : list tick) (consecutive_failures : Z) : M Z :=
  match ticks with
  | [] => ret consecutive_failures
  | t :: ticks' =>
      do consecutive_failures <- iteration t consecutive_failures;
      loop ticks' consecutive_failures
  end.

(** Where the process stands once the given answers are used up. *)
Inductive process : Type :=
| Running (consecutive_failures : Z)
| Exited (code : Z)
| Uncaught (e : exn).

Definition banner : M unit :=
  print (BOLD +:+ BLUE +:+ "🔍 Heliosinger Stream Health Monitor" +:+ RESET);;
  print ("Monitoring: " +:+ STREAM_URL);;
  print ("Check interval: " +:+ py_str HEALTH_CHECK_INTERVAL +:+ " seconds");;
  print ("Press Ctrl+C to stop" +:+ nl).

Definition STOPPED : string := nl +:+ BLUE +:+ "Monitoring stopped by user" +:+ RESET.

Definition main (ticks : list tick) : process * list event :=
  let (r, tr) := (banner;; loop ticks 0%Z) in
  match r with
  | Return n => (Running n, tr)
  | Raise KeyboardInterrupt => (Exited 0, tr ++ [Print STOPPED])
  | Raise e => (Uncaught e, tr)
  end.

End HealthPoller.

(** * The [json] module, as far as the settings document needs it *)
Module Json.

Inductive value : Type :=
| JStr (s : string)
| JInt (n : Z)
| JBool (b : bool)
| JObj (members : list (string * value)).

Definition dq : string := String (ascii_of_nat 34) EmptyString.
Definition backslash : string := String (ascii_of_nat 92) EmptyString.

Definition hex_digit (n : nat) : ascii :=
  if (n <? 10)%nat then ascii_of_nat (48 + n) else ascii_of_nat (87 + n).

(** [ensure_ascii=True]: everything outside [' '..'~'] is escaped. *)
Definition escape_char (c : ascii) : string :=
  let n := nat_of_ascii c in
  if (n =? 34)%nat then backslash +:+ dq
  else if (n =? 92)%nat then backslash +:+ backslash
  else if (n =? 10)%nat then backslash +:+ "n"
  else if (n =? 13)%nat then backslash +:+ "r"
  else if (n =? 9)%nat then backslash +:+ "t"
  else if (n =? 8)%nat then backslash +:+ "b"
  else if (n =? 12)%nat then backslash +:+ "f"
  else if ((32 <=? n) && (n <=? 126))%nat then String c EmptyString
  else backslash +:+ "u00"
       +:+ String (hex_digit (n / 16)) (String (hex_digit (n mod 16)) EmptyString).

Fixpoint escape (s : string) : string :=
  match s with
  | EmptyString => EmptyString
  | String c s' => escape_char c +:+ escape s'
  end.

Definition encode_str (s : string) : string := dq +:+ escape s +:+ dq.

(** [json.dumps(v, indent=2)], with [level] the nesting depth. *)
Fixpoint dumps_at (level : nat) (v : value) : string :=
  match v with
  | JStr s => encode_str s
  | JInt n => py_str n
  | JBool b => if b then "true" else "false"
  | JObj [] => "{}"
  | JObj members =>
      "{"
      +:+ (fix items (first : bool) (ms : list (string * value)) : string :=
             match ms with
             | [] => EmptyString
             | (k, x) :: ms' =>
                 (if first then EmptyString else ",")
                 +:+ nl +:+ str_mul " " (2 * S level)
                 +:+ encode_str k +:+ ": " +:+ dumps_at (S level) x
                 +:+ items false ms'
             end) true members
      +:+ nl +:+ str_mul " " (2 * level) +:+ "}"
  end.

Definition dumps (v : value) : string := dumps_at 0 v.

(** ** [json.loads] on the same fragment *)

Definition is_ws (c : ascii) : bool :=
  let n := nat_of_ascii c in
  ((n =? 32) || (n =? 10) || (n =? 13) || (n =? 9))%nat.

Fixpoint skip_ws (s : string) : string :=
  match s with
  | String c s' => if is_ws c then skip_ws s' else s
  | EmptyString => s
  end.

Definition hex_value (c : ascii) : option nat :=
  let n := nat_of_ascii c in
  if ((48 <=? n) && (n <=? 57))%nat then Some (n - 48)%nat
  else if ((97 <=? n) && (n <=? 102))%nat then Some (n - 87)%nat
  else if ((65 <=? n) && (n <=? 70))%nat then Some (n - 55)%nat
  else None.

(** The text after an opening quote: the decoded string and what follows
    the closing quote. *)
Fixpoint scan_string (s : string) : option (string * string) :=
  match s with
  | EmptyString => None
  | String c s' =>
      let n := nat_of_ascii c in
      if (n =? 34)%nat then Some (EmptyString, s')
      else if (n =? 92)%nat then
        match s' with
        | String e s'' =>
            let plain (d : ascii) :=
              match scan_string s'' with
              | Some (body, rest) => Some (String d body, rest)
              | None => None
              end in
            let m := nat_of_ascii e in
            if (m =? 34)%nat then plain e
            else if (m =? 92)%nat then plain e
            else if (m =? 47)%nat then plain e
            else if (m =? 110)%nat then plain (ascii_of_nat 10)
            else if (m =? 114)%nat then plain (ascii_of_nat 13)
            else if (m =? 116)%nat then plain (ascii_of_nat 9)
            else if (m =? 98)%nat then plain (ascii_of_nat 8)
            else if (m =? 102)%nat then plain (ascii_of_nat 12)
            else if (m =? 117)%nat then
              match s'' with
              | String "0" (String "0" (String h (String l s3))) =>
                  match hex_value h, hex_value l, scan_string s3 with
                  | Some a, Some b, Some (body, rest) =>
                      Some (String (ascii_of_nat (16 * a + b)) body, rest)
                  | _, _, _ => None
                  end
              | _ => None
              end
            else None
        | EmptyString => None
        end
      else if (n <? 32)%nat then None
      else
        match scan_string s' with
        | Some (body, rest) => Some (String c body, rest)
        | None => None
        end
  end.

Definition is_digit (c : ascii) : bool :=
  let n := nat_of_ascii c in ((48 <=? n) && (n <=? 57))%nat.

Fixpoint scan_digits (acc : Z) (s : string) : Z * string :=
  match s with
  | String c s' =>
      if is_digit c
      then scan_digits (10 * acc + Z.of_nat (nat_of_ascii c - 48)) s'
      else (acc, s)
  | EmptyString => (acc, s)
  end.

Definition scan_int (s : string) : option (Z * string) :=
  match s with
  | String "-" (String c s') =>
      if is_digit c then
        let (n, rest) := scan_digits 0 (String c s') in Some ((- n)%Z, rest)
      else None
  | String c _ =>
      if is_digit c then Some (scan_digits 0 s) else None
  | EmptyString => None
  end.

Definition strip_prefix (p s : string) : option string :=
  if str_prefix p s
  then Some (String.substring (String.length p) (String.length s - String.length p) s)
  else None.

(** [parse_value] reads one value; [parse_members] reads the members of an
    object up to its closing brace, [acc] holding those read so far (a
    repeated key keeps its last value, as a [dict] does). *)
Fixpoint parse_value (fuel : nat) (s : string) : option (value * string) :=
  match fuel with
  | O => None
  | S fuel' =>
      match skip_ws s with
      | String "{" rest =>
          match skip_ws rest with
          | String "}" rest' => Some (JObj [], rest')
          | rest' => parse_members fuel' [] rest'
          end
      | String c rest as s' =>
          if (nat_of_ascii c =? 34)%nat then
            match scan_string rest with
            | Some (body, rest') => Some (JStr body, rest')
            | None => None
            end
          else
            match strip_prefix "true" s', strip_prefix "false" s' with
            | Some rest', _ => Some (JBool true, rest')
            | _, Some rest' => Some (JBool false, rest')
            | None, None =>
                match scan_int s' with
                | Some (n, rest') => Some (JInt n, rest')
                | None => None
                end
            end
      | EmptyString => None
      end
  end
with parse_members (fuel : nat) (acc : list (string * value)) (s : string)
    : option (value * string) :=
  match fuel with
  | O => None
  | S fuel' =>
      match skip_ws s with
      | String q rest =>
          if (nat_of_ascii q =? 34)%nat then
            match scan_string rest with
            | Some (key, rest1) =>
                match skip_ws rest1 with
                | String ":" rest2 =>
                    match parse_value fuel' rest2 with
                    | Some (x, rest3) =>
                        let acc' := dict_set key x acc in
                        match skip_ws rest3 with
                        | String "," rest4 => parse_members fuel' acc' rest4
                        | String "}" rest4 => Some (JObj acc', rest4)
                        | _ => None
                        end
                    | None => None
                    end
                | _ => None
                end
            | None => None
            end
          else None
      | EmptyString => None
      end
  end.

Definition loads (s : string) : option value :=
  match parse_value (S (String.length s)) s with
  | Some (v, rest) =>
      match skip_ws rest with
      | EmptyString => Some v
      | _ => None
      end
  | None => None
  end.

End Json.

(** * scripts/obs_setup_helper.py *)
Module SetupHelper.
Import Colors.
Local Open Scope py_scope.

(** What a check hands back: [True], [False], or [None] when it ends
    without a [return]. *)
Inductive pyvalue : Type := PyTrue | PyFalse | PyNone.

Definition truthy (v : pyvalue) : bool :=
  match v with PyTrue => true | _ => false end.

(** [subprocess.CompletedProcess] *)
Record completed : Type := { returncode : Z; stdout : string }.

(** What [json.dump] and the close at the end of the [with] block do to a
    file that [open(path, 'w')] has opened, and so emptied: they store the
    whole text, or raise an [OSError] with message [text] and leave in the
    file what got through ([stored]). *)
Inductive dump_outcome : Type :=
| Dumped
| DumpFailed (stored text : string).

(** The machine the script runs on. *)
Record env : Type := {
  home : string;                          (* str(Path.home()) *)
  script_dir : string;                    (* str(Path(__file__).parent) *)
  path_exists : string -> bool;           (* os.path.exists: False on any OSError *)
  Path_exists : string -> exec bool;      (* Path.exists: re-raises an OSError other
                                             than "no such file or directory" *)
  system_profiler : exec completed;       (* run(["system_profiler", "SPDisplaysDataType"]) *)
  connect_ex : exec Z;                    (* socket(), settimeout, connect_ex, close *)
  stream_page : exec response;            (* urlopen('http://localhost:5173/stream') *)
  iterdir_profiles : exec (list string);  (* list(OBS_BASIC_PROFILES.iterdir()) *)
  cpu_count : option Z;                   (* os.cpu_count() *)
  platform_system : string;               (* platform.system() *)
  sysctl_memsize : exec completed;        (* run(["sysctl", "-n", "hw.memsize"]) *)
  int_of_stripped : string -> exec Z;     (* int(text.strip()) *)
  format_gb : Z -> string;                (* f"{n / (1024**3):.1f}" *)
  which_caffeinate : exec completed;      (* run(["which", "caffeinate"]) *)
  open_template : exec unit;              (* open(template_path, 'w') *)
  dump_template : dump_outcome            (* json.dump(settings, f, indent=2), close *)
}.

Definition ask {A} (answer : exec A) : M A := (answer, []).

(** [Path(a) / b] for a relative [b]. *)
Definition path_join (a b : string) : string :=
  if String.eqb a "/" then "/" +:+ b
  else if String.eqb a "." then b
  else a +:+ "/" +:+ b.

Definition OBS_CONFIG_BASE (e : env) : string :=
  path_join (home e) "Library/Application Support/obs-studio".
Definition OBS_GLOBAL_INI (e : env) : string :=
  path_join (OBS_CONFIG_BASE e) "global.ini".
Definition OBS_BASIC_PROFILES (e : env) : string :=
  path_join (OBS_CONFIG_BASE e) "basic/profiles".

Definition rule : string := str_mul "=" 60.

Definition print_header (text : string) : M unit :=
  print (nl +:+ BOLD +:+ BLUE +:+ rule +:+ RESET);;
  print (BOLD +:+ BLUE +:+ text +:+ RESET);;
  print (BOLD +:+ BLUE +:+ rule +:+ RESET +:+ nl).

Definition success_line (text : string) : string := GREEN +:+ "✅ " +:+ text +:+ RESET.
Definition warning_line (text : string) : string := YELLOW +:+ "⚠️  " +:+ text +:+ RESET.
Definition error_line (text : string) : string := RED +:+ "❌ " +:+ text +:+ RESET.
Definition info_line (text : string) : string := BLUE +:+ "ℹ️  " +:+ text +:+ RESET.

Definition print_success (text : string) : M unit := print (success_line text).
Definition print_warning (text : string) : M unit := print (warning_line text).
Definition print_error (text : string) : M unit := print (error_line text).
Definition print_info (text : string) : M unit := print (info_line text).

Definition obs_paths : list string :=
  [ "/Applications/OBS.app"; "/Applications/OBS Studio.app"; "/usr/local/bin/obs" ].

Fixpoint find_obs (e : env) (paths : list string) : M pyvalue :=
  match paths with
  | path :: paths' =>
      if path_exists e path then
        print_success ("OBS Studio found at: " +:+ path);;
        ret PyTrue
      else find_obs e paths'
  | [] =>
      print_error "OBS Studio not found";;
      print_info "Install with: brew install --cask obs";;
      ret PyFalse
  end.

Definition check_obs_installed (e : env) : M pyvalue := find_obs e obs_paths.

Definition check_hardware_encoding (e : env) : M pyvalue :=
  try_except
    (do result <- ask (system_profiler e);
     if str_in "Metal" (stdout result) then
       print_success "Hardware encoding supported (Metal detected)";;
       print_info "Use 'Apple VT H264 Hardware Encoder' in OBS";;
       ret PyTrue
     else
       print_warning "Metal not detected - may need software encoding";;
       ret PyFalse)
    (fun ex =>
       if is_Exception ex then
         Some (print_warning ("Could not check hardware encoding: " +:+ str_exn ex);;
               ret PyFalse)
       else None).

Definition DEV_STREAM_URL : string := "http://localhost:5173/stream".

Definition check_dev_server (e : env) : M pyvalue :=
  try_except
    (do result <- ask (connect_ex e);
     if (result =? 0)%Z then
       try_except
         (do response <- urlopen (stream_page e) DEV_STREAM_URL;
          if (status response =? 200)%Z then
            print_success "Dev server is running and stream page is accessible";;
            ret PyTrue
          else
            (* no branch for another status: control runs off the end *)
            ret PyNone)
         (fun _ =>
            Some (print_warning "Dev server is running but /stream page may not be accessible";;
                  ret PyFalse))
     else
       print_error "Dev server is not running on port 5173";;
       print_info "Start with: cd /Volumes/VIXinSSD/SolarChime && npm run dev";;
       ret PyFalse)
    (fun ex =>
       if is_Exception ex then
         Some (print_error ("Could not check dev server: " +:+ str_exn ex);;
               ret PyFalse)
       else None).

Definition check_obs_config (e : env) : M pyvalue :=
  do base_exists <- ask (Path_exists e (OBS_CONFIG_BASE e));
  if negb base_exists then
    print_warning "OBS configuration directory not found";;
    print_info "OBS may not have been launched yet";;
    ret PyFalse
  else
    print_success "OBS configuration directory found";;
    (do profiles_exists <- ask (Path_exists e (OBS_BASIC_PROFILES e));
     if profiles_exists : bool then
       do profiles <- ask (iterdir_profiles e);
       match profiles with
       | _ :: _ =>
           print_info ("Found " +:+ py_str (Z.of_nat (length profiles)) +:+ " OBS profile(s)")
       | [] => print_warning "No OBS profiles found - create one in OBS"
       end
     else ret tt);;
    ret PyTrue.

Definition settings : Json.value :=
  Json.JObj
    [ ("video", Json.JObj
         [ ("base_resolution", Json.JStr "1920x1080");
           ("output_resolution", Json.JStr "1920x1080");
           ("fps", Json.JInt 30) ]);
      ("output", Json.JObj
         [ ("mode", Json.JStr "simple");
           ("video_bitrate", Json.JInt 6000);
           ("audio_bitrate", Json.JInt 160);
           ("encoder", Json.JStr "Apple VT H264 Hardware Encoder") ]);
      ("audio", Json.JObj
         [ ("sample_rate", Json.JInt 48000);
           ("channels", Json.JInt 2) ]);
      ("browser_source", Json.JObj
         [ ("url", Json.JStr "http://localhost:5173/stream");
           ("width", Json.JInt 1920);
           ("height", Json.JInt 1080);
           ("fps", Json.JInt 30);
           ("shutdown_when_not_visible", Json.JBool true);
           ("refresh_when_scene_active", Json.JBool true) ]) ].

Definition template_path (e : env) : string :=
  path_join (script_dir e) "obs_settings_template.json".

(** [json.dump(value, f, indent=2)] and the close of [f] at the end of the
    [with] block, on a file just opened for writing. *)
Definition json_dump (outcome : dump_outcome) (path : string) (value : Json.value)
    : M unit :=
  match outcome with
  | Dumped => emit (WriteFile path (Json.dumps value))
  | DumpFailed stored text => (Raise (Exception text), [WriteFile path stored])
  end.

Definition generate_obs_settings_template (e : env) : M string :=
  ask (open_template e);;
  json_dump (dump_template e) (template_path e) settings;;
  print_success ("Settings template saved to: " +:+ template_path e);;
  ret (template_path e).

Definition str_of_cpu_count (n : option Z) : string :=
  match n with Some k => py_str k | None => "None" end.

Definition check_system_resources (e : env) : M pyvalue :=
  try_except
    (print_info ("CPU cores: " +:+ str_of_cpu_count (cpu_count e));;
     (if String.eqb (platform_system e) "Darwin" then
        do result <- ask (sysctl_memsize e);
        if (returncode result =? 0)%Z then
          do memsize <- ask (int_of_stripped e (stdout result));
          print_info ("Total RAM: " +:+ format_gb e memsize +:+ " GB")
        else ret tt
      else ret tt);;
     do which <- ask (which_caffeinate e);
     if (returncode which =? 0)%Z
     then print_success "caffeinate available (for preventing sleep)"
     else print_warning "caffeinate not found")
    (fun ex =>
       if is_Exception ex
       then Some (print_warning ("Could not check system resources: " +:+ str_exn ex))
       else None);;
  (* the body has no return statement *)
  ret PyNone.

Definition instructions : list (string * string) :=
  [ ("1. Launch OBS Studio", "open /Applications/OBS.app");
    ("2. Auto-Configuration", "Select 'Optimize for streaming' → YouTube");
    ("3. Add Browser Source", "Sources → + → Browser → Name: 'Heliosinger Stream'");
    ("4. Configure Browser Source",
     "URL: http://localhost:5173/stream" +:+ nl +:+ "     Width: 1920, Height: 1080, FPS: 30");
    ("5. Configure Audio", "Settings → Audio → Enable Desktop Audio");
    ("6. Set Up YouTube Stream",
     "Settings → Stream → YouTube - RTMPS" +:+ nl +:+ "     Get stream key from YouTube Studio");
    ("7. Optimize Video Settings",
     "Settings → Video → 1920x1080 @ 30fps" +:+ nl +:+ "     Settings → Output → Use Hardware Encoder") ].

Definition print_setup_instructions : M unit :=
  print_header "OBS Setup Instructions";;
  for_each instructions (fun '(title, details) =>
    print (nl +:+ BOLD +:+ title +:+ RESET);;
    print ("   " +:+ details)).

Definition tips : dict (list string) :=
  [ ("No audio from browser source",
     [ "Click Browser source settings"; "Check 'Control audio via OBS'" ]);
    ("Stream is laggy",
     [ "Lower FPS to 30"; "Use Hardware Encoder";
       "Reduce browser source resolution to 1280x720" ]);
    ("Can't connect to localhost",
     [ "Make sure dev server is running: npm run dev";
       "Try http://127.0.0.1:5173/stream instead" ]);
    ("YouTube says no data",
     [ "Wait 30-60 seconds for initial buffer";
       "Check your stream key is correct" ]) ].

Definition print_troubleshooting : M unit :=
  print_header "Troubleshooting Tips";;
  for_each tips (fun '(issue, solutions) =>
    print (nl +:+ YELLOW +:+ issue +:+ RESET);;
    for_each solutions (fun solution => print ("  • " +:+ solution))).

Definition check := (env -> M pyvalue).

Definition checks : dict check :=
  [ ("OBS Installation", check_obs_installed);
    ("Hardware Encoding", check_hardware_encoding);
    ("Dev Server", check_dev_server);
    ("OBS Configuration", check_obs_config);
    ("System Resources", check_system_resources) ].

(** The body of [for name, check_func in checks.items()]. *)
Definition run_check (e : env) (name : string) (check_func : check)
    (results : dict pyvalue) : M (dict pyvalue) :=
  print (nl +:+ BOLD +:+ "Checking: " +:+ name +:+ RESET);;
  try_except
    (do outcome <- check_func e;
     ret (dict_set name outcome results))
    (fun ex =>
       if is_Exception ex then
         Some (print_error ("Error checking " +:+ name +:+ ": " +:+ str_exn ex);;
               ret (dict_set name PyFalse results))
       else None).

Fixpoint run_checks (e : env) (todo : dict check) (results : dict pyvalue)
    : M (dict pyvalue) :=
  match todo with
  | [] => ret results
  | (name, check_func) :: todo' =>
      do results' <- run_check e name check_func results;
      run_checks e todo' results'
  end.

Definition ALL_PASSED : string := success_line "All checks passed! You're ready to stream.".
Definition SOME_FAILED : string := warning_line "Some checks failed. Review the issues above.".

(** [all(results.values())] *)
Definition all_values (results : dict pyvalue) : bool :=
  forallb truthy (dict_values results).

Definition generate_step (e : env) : M unit :=
  print (nl +:+ rule);;
  print "Generating OBS settings template...";;
  try_except
    (do path <- generate_obs_settings_template e;
     print_info ("Reference template: " +:+ path))
    (fun ex =>
       if is_Exception ex
       then Some (print_warning ("Could not generate template: " +:+ str_exn ex))
       else None).

Definition summary (results : dict pyvalue) : M unit :=
  print_header "Setup Summary";;
  let all_passed := all_values results in
  (if all_passed then
     print ALL_PASSED
   else
     print SOME_FAILED;;
     print_info "Run this script again after fixing issues.");;
  print (nl +:+ rule);;
  print (BOLD +:+ "Quick Start:" +:+ RESET);;
  print "  1. Run: ./scripts/helio-stream.sh";;
  print "  2. Configure OBS as shown above";;
  print "  3. Start streaming!";;
  print (rule +:+ nl).

(** [main], over the table of checks it iterates. *)
Definition main_over (table : dict check) (e : env) : M unit :=
  print_header "Heliosinger OBS Setup Helper";;
  print ("Checking system requirements..." +:+ nl);;
  do results <- run_checks e table [];
  generate_step e;;
  print_setup_instructions;;
  print_troubleshooting;;
  summary results.

Definition main (e : env) : M unit := main_over checks e.

(** The file system after the writes of a trace. *)
Definition apply_event (fs : gmap string string) (ev : event) : gmap string string :=
  match ev with
  | WriteFile path content => <[path := content]> fs
  | _ => fs
  end.

Definition apply_trace (fs : gmap string string) (tr : list event) : gmap string string :=
  fold_left apply_event tr fs.

End SetupHelper.

(** * Vocabulary of the properties

    Observations on results and traces, used to state the theorems. *)
Module Observations.
Import HealthPoller SetupHelper.

Definition is_interrupt {A} (x : exec A) : bool :=
  match x with Raise KeyboardInterrupt => true | _ => false end.

(** A call that raises, if at all, an instance of [Exception]. *)
Definition raises_only_Exception {A} (x : exec A) : bool :=
  match x with Raise e => is_Exception e | Return _ => true end.

(** The advisory of the poller was printed: its hint line is in the trace. *)
Definition advisory_printed (tr : list event) : bool := printed ADVISORY_HINT tr.

(** The two lines of the advisory. *)
Definition advisory_lines (t : tick) : list event :=
  [ Print (status_line (now_advisory t) "ERROR" ADVISORY); Print ADVISORY_HINT ].

(** Some API endpoint was fetched. *)
Definition secondary_probed (tr : list event) : bool :=
  existsb (fun ev =>
             match ev with
             | Get url => existsb (String.eqb url) endpoints
             | _ => false
             end) tr.

(** The operator's Ctrl+C arrives during this iteration: in the primary
    fetch, in a fetch of an endpoint when the gate is open, or in the
    sleep. *)
Definition interrupted (t : tick) : bool :=
  is_interrupt (primary t)
  || (api_gate (time_time t) && existsb (fun ep => is_interrupt (api t ep)) endpoints)
  || match sleep t with SleepInterrupted => true | Slept => false end.

(** No fetch of an endpoint is hit by Ctrl+C. *)
Definition uninterrupted (api : string -> exec response) : bool :=
  forallb (fun ep => negb (is_interrupt (api ep))) endpoints.

(** The text a probed endpoint's answer is turned into. *)
Definition endpoint_text (answer : exec response) : string :=
  match answer with
  | Return r => if (status r =? 200)%Z then "OK" else "Status " +:+ py_str (status r)
  | Raise e => "Error: " +:+ str_slice_to 50 (str_exn e)
  end.

(** What the table of results holds for a check that was run. *)
Definition recorded (x : exec pyvalue) : pyvalue :=
  match x with Return v => v | Raise _ => PyFalse end.

(** The line that announces a check, and the line that reports its fault. *)
Definition checking_line (name : string) : string :=
  nl +:+ Colors.BOLD +:+ "Checking: " +:+ name +:+ Colors.RESET.

Definition fault_line (name : string) (ex : exn) : string :=
  error_line ("Error checking " +:+ name +:+ ": " +:+ str_exn ex).

(** The second line of the header of the summary. *)
Definition SUMMARY_TITLE : string :=
  Colors.BOLD +:+ Colors.BLUE +:+ "Setup Summary" +:+ Colors.RESET.

(** No check of the table is hit by Ctrl+C. *)
Definition calm (e : env) (table : dict check) : bool :=
  forallb (fun entry => raises_only_Exception (result (snd entry e))) table.

(** The table of results after the checks of [table] ran on top of [results]. *)
Definition tabulate (e : env) (table : dict check) (results : dict pyvalue)
    : dict pyvalue :=
  fold_left (fun d entry => dict_set (fst entry) (recorded (result (snd entry e))) d)
            table results.

Definition is_write (ev : event) : bool :=
  match ev with WriteFile _ _ => true | _ => false end.

(** The keys of a JSON object. *)
Definition json_keys (v : Json.value) : list string :=
  match v with Json.JObj members => dict_keys members | _ => [] end.

(** The member of a JSON object under a key. *)
Definition json_member (k : string) (v : Json.value) : option Json.value :=
  match v with Json.JObj members => dict_get k members | _ => None end.

(** The file writes of a trace, in order. *)
Definition writes (tr : list event) : list event := filter is_write tr.


(** The lines of the resources check. *)
Definition cpu_line (e : env) : event :=
  Print (info_line ("CPU cores: " +:+ str_of_cpu_count (cpu_count e))).

Definition caffeinate_line (w : completed) : event :=
  Print (if (returncode w =? 0)%Z
         then success_line "caffeinate available (for preventing sleep)"
         else warning_line "caffeinate not found").

(** A check passed: it returned [True]. *)
Definition passed (x : exec pyvalue) : bool :=
  match x with Return PyTrue => true | _ => false end.

(** The primary probe of the iteration fails: any answer but a response
    with status 200. *)
Definition probe_failed (t : tick) : bool :=
  match primary t with
  | Return r => negb (status r =? 200)%Z
  | Raise _ => true
  end.

(** The failures at the start of a list of iterations, up to the first
    success. *)
Fixpoint leading_failures (ticks : list tick) : nat :=
  match ticks with
  | t :: ticks' => if probe_failed t then S (leading_failures ticks') else O
  | [] => O
  end.

(** The failures since the last success, at the end of a run. *)
Definition trailing_failures (ticks : list tick) : nat :=
  leading_failures (rev ticks).

Definition count_events (p : event -> bool) (tr : list event) : nat :=
  length (filter p tr).

Definition is_primary_get (ev : event) : bool :=
  match ev with Get url => String.eqb url STREAM_URL | _ => false end.

Definition is_sleep (ev : event) : bool :=
  match ev with Sleep _ => true | _ => false end.

(** The line the loop prints for an endpoint of the secondary probe. *)
Definition secondary_line (t : tick) (endpoint : string) : event :=
  let text := endpoint_text (api t endpoint) in
  Print (if String.eqb text "OK"
         then status_line (now_api t endpoint) "OK"
                ("API endpoint OK: " +:+ last_segment endpoint)
         else status_line (now_api t endpoint) "WARNING"
                ("API issue: " +:+ last_segment endpoint +:+ " - " +:+ text)).

(** The endpoint answered with status 200. *)
Definition answered_ok (answer : exec response) : bool :=
  match answer with Return r => (status r =? 200)%Z | Raise _ => false end.


End Observations.

(** * Sample worlds *)
Module Samples.
Import HealthPoller SetupHelper.

Definition ok_response : response := {| status := 200 |}.
Definition created_response : response := {| status := 201 |}.

(** An iteration in which the stream is down, the gate is open and nothing
    interrupts. *)
Definition down_tick : tick := {|
  primary := Raise (URLError "<urlopen error [Errno 61] Connection refused>");
  now_primary := "12:00:45";
  now_advisory := "12:00:45";
  time_time := 1700000045 # 1;
  api := fun _ => Return ok_response;
  now_api := fun _ => "12:00:45";
  sleep := Slept |}.

(** An iteration in which the stream answers 200 and the gate is closed. *)
Definition up_tick : tick := {|
  primary := Return ok_response;
  now_primary := "12:01:15";
  now_advisory := "12:01:15";
  time_time := 1700000075 # 1;
  api := fun _ => Return ok_response;
  now_api := fun _ => "12:01:15";
  sleep := Slept |}.

(** The operator presses Ctrl+C during the sleep. *)
Definition stop_tick : tick := {|
  primary := Return ok_response;
  now_primary := "12:01:45";
  now_advisory := "12:01:45";
  time_time := 1700000105 # 1;
  api := fun _ => Return ok_response;
  now_api := fun _ => "12:01:45";
  sleep := SleepInterrupted |}.

(** First endpoint times out with a long message, second answers 503. *)
Definition flaky_api (endpoint : string) : exec response :=
  if String.eqb endpoint "http://localhost:5173/api/space-weather/comprehensive"
  then Raise (Exception
    "HTTPConnectionPool(host='localhost', port=5173): Read timed out. (read timeout=5)")
  else Return {| status := 503 |}.

(** A 60-character error text. *)
Definition long_text : string := str_mul "connect! " 6 +:+ "123456".

Definition run (code : Z) (out : string) : completed :=
  {| returncode := code; stdout := out |}.

(** A Mac on which every condition the checks look at is met. *)
Definition ready_mac : env := {|
  home := "/Users/operator";
  script_dir := "/Users/operator/SolarChime/scripts";
  path_exists := fun _ => true;
  system_profiler := Return (run 0 "Chipset Model: Apple M1; Metal Support: Metal 3");
  connect_ex := Return 0%Z;
  stream_page := Return ok_response;
  iterdir_profiles := Return ["Untitled"];
  cpu_count := Some 8%Z;
  platform_system := "Darwin";
  sysctl_memsize := Return (run 0 ("17179869184" +:+ nl));
  int_of_stripped := fun _ => Return 17179869184%Z;
  format_gb := fun _ => "16.0";
  which_caffeinate := Return (run 0 "/usr/bin/caffeinate");
  open_template := Return tt;
  dump_template := Dumped;
  Path_exists := fun _ => Return true |}.

(** The same Mac, but listing the profiles directory is refused. *)
Definition locked_profiles : env := {|
  home := home ready_mac;
  script_dir := script_dir ready_mac;
  path_exists := path_exists ready_mac;
  system_profiler := system_profiler ready_mac;
  connect_ex := connect_ex ready_mac;
  stream_page := stream_page ready_mac;
  iterdir_profiles := Raise (Exception "[Errno 13] Permission denied");
  cpu_count := cpu_count ready_mac;
  platform_system := platform_system ready_mac;
  sysctl_memsize := sysctl_memsize ready_mac;
  int_of_stripped := int_of_stripped ready_mac;
  format_gb := format_gb ready_mac;
  which_caffeinate := which_caffeinate ready_mac;
  open_template := open_template ready_mac;
  dump_template := dump_template ready_mac;
  Path_exists := Path_exists ready_mac |}.

(** The same Mac, with the stream page answering 201. *)
Definition created_mac : env := {|
  home := home ready_mac;
  script_dir := script_dir ready_mac;
  path_exists := path_exists ready_mac;
  system_profiler := system_profiler ready_mac;
  connect_ex := connect_ex ready_mac;
  stream_page := Return created_response;
  iterdir_profiles := iterdir_profiles ready_mac;
  cpu_count := cpu_count ready_mac;
  platform_system := platform_system ready_mac;
  sysctl_memsize := sysctl_memsize ready_mac;
  int_of_stripped := int_of_stripped ready_mac;
  format_gb := format_gb ready_mac;
  which_caffeinate := which_caffeinate ready_mac;
  open_template := open_template ready_mac;
  dump_template := dump_template ready_mac;
  Path_exists := Path_exists ready_mac |}.

(** The same Mac, with the scripts directory on a read-only volume. *)
Definition read_only_mac : env := {|
  home := home ready_mac;
  script_dir := script_dir ready_mac;
  path_exists := path_exists ready_mac;
  system_profiler := system_profiler ready_mac;
  connect_ex := connect_ex ready_mac;
  stream_page := stream_page ready_mac;
  iterdir_profiles := iterdir_profiles ready_mac;
  cpu_count := cpu_count ready_mac;
  platform_system := platform_system ready_mac;
  sysctl_memsize := sysctl_memsize ready_mac;
  int_of_stripped := int_of_stripped ready_mac;
  format_gb := format_gb ready_mac;
  which_caffeinate := which_caffeinate ready_mac;
  open_template := Raise (Exception "[Errno 30] Read-only file system");
  dump_template := dump_template ready_mac;
  Path_exists := Path_exists ready_mac |}.

(** A machine that differs from another in one answer. *)
Definition with_path_exists (x : string -> bool) (e : env) : env := {|
  home := home e;
  script_dir := script_dir e;
  path_exists := x;
  system_profiler := system_profiler e;
  connect_ex := connect_ex e;
  stream_page := stream_page e;
  iterdir_profiles := iterdir_profiles e;
  cpu_count := cpu_count e;
  platform_system := platform_system e;
  sysctl_memsize := sysctl_memsize e;
  int_of_stripped := int_of_stripped e;
  format_gb := format_gb e;
  which_caffeinate := which_caffeinate e;
  open_template := open_template e;
  dump_template := dump_template e;
  Path_exists := Path_exists e |}.

Definition with_system_profiler (x : exec completed) (e : env) : env := {|
  home := home e;
  script_dir := script_dir e;
  path_exists := path_exists e;
  system_profiler := x;
  connect_ex := connect_ex e;
  stream_page := stream_page e;
  iterdir_profiles := iterdir_profiles e;
  cpu_count := cpu_count e;
  platform_system := platform_system e;
  sysctl_memsize := sysctl_memsize e;
  int_of_stripped := int_of_stripped e;
  format_gb := format_gb e;
  which_caffeinate := which_caffeinate e;
  open_template := open_template e;
  dump_template := dump_template e;
  Path_exists := Path_exists e |}.

Definition with_connect_ex (x : exec Z) (e : env) : env := {|
  home := home e;
  script_dir := script_dir e;
  path_exists := path_exists e;
  system_profiler := system_profiler e;
  connect_ex := x;
  stream_page := stream_page e;
  iterdir_profiles := iterdir_profiles e;
  cpu_count := cpu_count e;
  platform_system := platform_system e;
  sysctl_memsize := sysctl_memsize e;
  int_of_stripped := int_of_stripped e;
  format_gb := format_gb e;
  which_caffeinate := which_caffeinate e;
  open_template := open_template e;
  dump_template := dump_template e;
  Path_exists := Path_exists e |}.

Definition with_stream_page (x : exec response) (e : env) : env := {|
  home := home e;
  script_dir := script_dir e;
  path_exists := path_exists e;
  system_profiler := system_profiler e;
  connect_ex := connect_ex e;
  stream_page := x;
  iterdir_profiles := iterdir_profiles e;
  cpu_count := cpu_count e;
  platform_system := platform_system e;
  sysctl_memsize := sysctl_memsize e;
  int_of_stripped := int_of_stripped e;
  format_gb := format_gb e;
  which_caffeinate := which_caffeinate e;
  open_template := open_template e;
  dump_template := dump_template e;
  Path_exists := Path_exists e |}.

Definition with_iterdir_profiles (x : exec (list string)) (e : env) : env := {|
  home := home e;
  script_dir := script_dir e;
  path_exists := path_exists e;
  system_profiler := system_profiler e;
  connect_ex := connect_ex e;
  stream_page := stream_page e;
  iterdir_profiles := x;
  cpu_count := cpu_count e;
  platform_system := platform_system e;
  sysctl_memsize := sysctl_memsize e;
  int_of_stripped := int_of_stripped e;
  format_gb := format_gb e;
  which_caffeinate := which_caffeinate e;
  open_template := open_template e;
  dump_template := dump_template e;
  Path_exists := Path_exists e |}.

Definition with_platform_system (x : string) (e : env) : env := {|
  home := home e;
  script_dir := script_dir e;
  path_exists := path_exists e;
  system_profiler := system_profiler e;
  connect_ex := connect_ex e;
  stream_page := stream_page e;
  iterdir_profiles := iterdir_profiles e;
  cpu_count := cpu_count e;
  platform_system := x;
  sysctl_memsize := sysctl_memsize e;
  int_of_stripped := int_of_stripped e;
  format_gb := format_gb e;
  which_caffeinate := which_caffeinate e;
  open_template := open_template e;
  dump_template := dump_template e;
  Path_exists := Path_exists e |}.

Definition with_sysctl_memsize (x : exec completed) (e : env) : env := {|
  home := home e;
  script_dir := script_dir e;
  path_exists := path_exists e;
  system_profiler := system_profiler e;
  connect_ex := connect_ex e;
  stream_page := stream_page e;
  iterdir_profiles := iterdir_profiles e;
  cpu_count := cpu_count e;
  platform_system := platform_system e;
  sysctl_memsize := x;
  int_of_stripped := int_of_stripped e;
  format_gb := format_gb e;
  which_caffeinate := which_caffeinate e;
  open_template := open_template e;
  dump_template := dump_template e;
  Path_exists := Path_exists e |}.

Definition with_int_of_stripped (x : string -> exec Z) (e : env) : env := {|
  home := home e;
  script_dir := script_dir e;
  path_exists := path_exists e;
  system_profiler := system_profiler e;
  connect_ex := connect_ex e;
  stream_page := stream_page e;
  iterdir_profiles := iterdir_profiles e;
  cpu_count := cpu_count e;
  platform_system := platform_system e;
  sysctl_memsize := sysctl_memsize e;
  int_of_stripped := x;
  format_gb := format_gb e;
  which_caffeinate := which_caffeinate e;
  open_template := open_template e;
  dump_template := dump_template e;
  Path_exists := Path_exists e |}.

Definition with_which_caffeinate (x : exec completed) (e : env) : env := {|
  home := home e;
  script_dir := script_dir e;
  path_exists := path_exists e;
  system_profiler := system_profiler e;
  connect_ex := connect_ex e;
  stream_page := stream_page e;
  iterdir_profiles := iterdir_profiles e;
  cpu_count := cpu_count e;
  platform_system := platform_system e;
  sysctl_memsize := sysctl_memsize e;
  int_of_stripped := int_of_stripped e;
  format_gb := format_gb e;
  which_caffeinate := x;
  open_template := open_template e;
  dump_template := dump_template e;
  Path_exists := Path_exists e |}.

Definition with_open_template (x : exec unit) (e : env) : env := {|
  home := home e;
  script_dir := script_dir e;
  path_exists := path_exists e;
  system_profiler := system_profiler e;
  connect_ex := connect_ex e;
  stream_page := stream_page e;
  iterdir_profiles := iterdir_profiles e;
  cpu_count := cpu_count e;
  platform_system := platform_system e;
  sysctl_memsize := sysctl_memsize e;
  int_of_stripped := int_of_stripped e;
  format_gb := format_gb e;
  which_caffeinate := which_caffeinate e;
  open_template := x;
  dump_template := dump_template e;
  Path_exists := Path_exists e |}.

Definition with_dump_template (x : dump_outcome) (e : env) : env := {|
  home := home e;
  script_dir := script_dir e;
  path_exists := path_exists e;
  system_profiler := system_profiler e;
  connect_ex := connect_ex e;
  stream_page := stream_page e;
  iterdir_profiles := iterdir_profiles e;
  cpu_count := cpu_count e;
  platform_system := platform_system e;
  sysctl_memsize := sysctl_memsize e;
  int_of_stripped := int_of_stripped e;
  format_gb := format_gb e;
  which_caffeinate := which_caffeinate e;
  open_template := open_template e;
  dump_template := x;
  Path_exists := Path_exists e |}.

Definition with_Path_exists (x : string -> exec bool) (e : env) : env := {|
  home := home e;
  script_dir := script_dir e;
  path_exists := path_exists e;
  system_profiler := system_profiler e;
  connect_ex := connect_ex e;
  stream_page := stream_page e;
  iterdir_profiles := iterdir_profiles e;
  cpu_count := cpu_count e;
  platform_system := platform_system e;
  sysctl_memsize := sysctl_memsize e;
  int_of_stripped := int_of_stripped e;
  format_gb := format_gb e;
  which_caffeinate := which_caffeinate e;
  open_template := open_template e;
  dump_template := dump_template e;
  Path_exists := x |}.

(** The same Mac, with the volume of the scripts full: the file opens, the
    write fails and nothing gets through. *)
Definition full_disk_mac : env :=
  with_dump_template (DumpFailed "" "[Errno 28] No space left on device") ready_mac.

(** The same Mac, with the home directory unreadable: looking for the
    configuration directory is refused. *)
Definition locked_home : env :=
  with_Path_exists (fun _ => Raise (Exception "[Errno 13] Permission denied")) ready_mac.

(** An iteration in which the stream answers 404 while the gate is open. *)
Definition missing_tick : tick := {|
  primary := Raise (URLError "HTTP Error 404: Not Found");
  now_primary := "12:02:15";
  now_advisory := "12:02:15";
  time_time := 1700000165 # 1;
  api := flaky_api;
  now_api := fun _ => "12:02:16";
  sleep := Slept |}.

End Samples.

(** * Laws of the effect monad *)
Section MonadLaws.
Context {A B : Type}.
Implicit Types (m : M A) (k : A -> M B).

Lemma result_bind m k :
  result (bind m k)
  = match result m with Return a => result (k a) | Raise e => Raise e end.
Proof.
  destruct m as [[a | e] tr]; simpl; [destruct (k a) |]; reflexivity.
Qed.

Lemma trace_bind m k :
  trace (bind m k)
  = trace m ++ match result m with Return a => trace (k a) | Raise _ => [] end.
Proof.
  destruct m as [[a | e] tr]; simpl; [destruct (k a) | rewrite app_nil_r]; reflexivity.
Qed.

Lemma bind_Return (a : A) tr k :
  bind (Return a, tr) k = (result (k a), tr ++ trace (k a)).
Proof. simpl. destruct (k a); reflexivity. Qed.

Lemma bind_Raise (e : exn) tr k : bind (@Raise A e, tr) k = (Raise e, tr).
Proof. reflexivity. Qed.
End MonadLaws.

Lemma M_eta {A} (m : M A) : m = (result m, trace m).
Proof. destruct m; reflexivity. Qed.

(** * Text lemmas *)

Lemma length_append (a b : string) :
  String.length (a +:+ b) = (String.length a + String.length b)%nat.
Proof. induction a as [| c a IH]; simpl; [| rewrite IH]; reflexivity. Qed.

Lemma length_str_slice_to (n : nat) (s : string) :
  (String.length (str_slice_to n s) <= n)%nat.
Proof.
  revert s; induction n as [| n IH]; intros [| c s]; simpl; try lia.
  specialize (IH s). lia.
Qed.

Lemma str_slice_to_short (n : nat) (s : string) :
  (String.length s <= n)%nat -> str_slice_to n s = s.
Proof.
  revert s; induction n as [| n IH]; intros [| c s]; simpl; intros H;
    try reflexivity; try lia.
  rewrite IH; [reflexivity | lia].
Qed.

Lemma length_str_mul_char (c : ascii) (n : nat) :
  String.length (str_mul (String c EmptyString) n) = n.
Proof.
  induction n as [| n IH]; [reflexivity |].
  change (S (String.length (str_mul (String c EmptyString) n)) = S n).
  now rewrite IH.
Qed.

Lemma str_prefix_append (p s : string) : str_prefix p (p +:+ s) = true.
Proof.
  induction p as [| c p IH]; simpl; [reflexivity |].
  rewrite Ascii.eqb_refl. exact IH.
Qed.

Lemma str_in_prefix (p s : string) : str_prefix p s = true -> str_in p s = true.
Proof. destruct s; simpl; intros ->; reflexivity. Qed.

Lemma str_in_append (a p b : string) : str_in p (a +:+ p +:+ b) = true.
Proof.
  induction a as [| c a IH]; simpl.
  - change (EmptyString +:+ p +:+ b) with (p +:+ b).
    apply str_in_prefix, str_prefix_append.
  - change (String c a +:+ p +:+ b) with (String c (a +:+ p +:+ b)).
    simpl. rewrite IH. apply orb_true_r.
Qed.

Lemma str_in_suffix (a p : string) : str_in p (a +:+ p) = true.
Proof.
  replace (a +:+ p) with (a +:+ p +:+ EmptyString).
  - apply str_in_append.
  - f_equal. induction p as [| c p IH]; [reflexivity |].
    change (String c (p +:+ EmptyString) = String c p). now rewrite IH.
Qed.

(** * The health poller: the primary probe *)
Section PrimaryProbe.
Import HealthPoller Observations Samples.

Lemma check_stream_accessible_response (r : response) :
  check_stream_accessible (Return r)
  = (Return (if (status r =? 200)%Z
             then (true, "Stream page is accessible")
             else (false, "Stream returned status " +:+ py_str (status r))),
     [Get STREAM_URL]).
Proof.
  unfold check_stream_accessible, urlopen; simpl.
  destruct (status r =? 200)%Z; reflexivity.
Qed.

Lemma check_stream_accessible_raise (e : exn) :
  check_stream_accessible (Raise e)
  = (match e with
     | URLError text => Return (false, "Cannot connect to stream: " +:+ text)
     | Exception text => Return (false, "Error checking stream: " +:+ text)
     | KeyboardInterrupt => Raise KeyboardInterrupt
     end, [Get STREAM_URL]).
Proof. destruct e; reflexivity. Qed.

(** C2, as amended: a response with status 200 makes the primary probe
    return true; every other status and every raised [Exception] makes it
    return false, with a message that holds the status code, respectively
    the complete error text (nothing is cut off) after a fixed prefix. *)
Theorem primary_probe_classification :
  (forall r : response, status r = 200%Z ->
     result (check_stream_accessible (Return r))
     = Return (true, "Stream page is accessible"))
  /\ (forall r : response, status r <> 200%Z ->
        exists message,
          result (check_stream_accessible (Return r)) = Return (false, message)
          /\ message = "Stream returned status " +:+ py_str (status r)
          /\ str_in (py_str (status r)) message = true)
  /\ (forall e : exn, is_Exception e = true ->
        exists message,
          result (check_stream_accessible (Raise e)) = Return (false, message)
          /\ message = (if is_URLError e then "Cannot connect to stream: "
                        else "Error checking stream: ") +:+ str_exn e
          /\ str_in (str_exn e) message = true).
Proof.
  split; [| split].
  - intros r H. rewrite check_stream_accessible_response; simpl.
    apply Z.eqb_eq in H. now rewrite H.
  - intros r H. rewrite check_stream_accessible_response; simpl.
    apply Z.eqb_neq in H. rewrite H.
    eexists; repeat split. apply str_in_suffix.
  - intros e H. rewrite check_stream_accessible_raise.
    destruct e as [text | text |]; simpl in *; try discriminate;
      eexists; repeat split; apply str_in_suffix.
Qed.

Lemma primary_probe_classification_witness :
  result (check_stream_accessible (Return ok_response))
  = Return (true, "Stream page is accessible")
  /\ (exists message,
        result (check_stream_accessible (Return created_response)) = Return (false, message)
        /\ message = "Stream returned status " +:+ py_str (status created_response)
        /\ str_in (py_str (status created_response)) message = true)
  /\ (exists message,
        result (check_stream_accessible (Raise (URLError long_text))) = Return (false, message)
        /\ message = "Cannot connect to stream: " +:+ long_text
        /\ str_in long_text message = true).
Proof.
  destruct primary_probe_classification as [H200 [Hother Hexn]].
  split; [| split].
  - apply H200. reflexivity.
  - apply Hother. simpl. lia.
  - apply (Hexn (URLError long_text)). reflexivity.
Defined.

(** C2, as stated, fails: the error text is not truncated.  No bound limits
    how much of it enters the message of the primary probe. *)
Lemma primary_probe_text_not_truncated :
  ~ exists n : nat, forall text message,
      result (check_stream_accessible (Raise (URLError text))) = Return (false, message) ->
      (String.length message <= String.length "Cannot connect to stream: " + n)%nat.
Proof.
  intros [n H].
  pose proof (H (str_mul "x" (S n))
                ("Cannot connect to stream: " +:+ str_mul "x" (S n)) eq_refl) as H'.
  rewrite length_append, length_str_mul_char in H'. lia.
Qed.

End PrimaryProbe.

(** * The health poller: the secondary probes *)
Section SecondaryProbe.
Import HealthPoller Observations Samples.

Lemma probe_endpoint_spec api ep (results : dict string) :
  probe_endpoint api ep results
  = (if is_interrupt (api ep) then Raise KeyboardInterrupt
     else Return (dict_set ep (endpoint_text (api ep)) results),
     [Get ep]).
Proof.
  unfold probe_endpoint, urlopen.
  destruct (api ep) as [r | [text | text |]]; simpl; try reflexivity.
  destruct (status r =? 200)%Z; reflexivity.
Qed.

Lemma check_api_endpoints_spec api :
  uninterrupted api = true ->
  check_api_endpoints api
  = (Return (map (fun ep => (ep, endpoint_text (api ep))) endpoints),
     map Get endpoints).
Proof.
  unfold uninterrupted, check_api_endpoints, endpoints; simpl.
  intros H. rewrite !probe_endpoint_spec.
  destruct (is_interrupt (api _)); [discriminate |].
  simpl in H |- *. rewrite probe_endpoint_spec.
  destruct (is_interrupt (api _)); [discriminate |].
  reflexivity.
Qed.

Lemma endpoint_text_error_bounded (e : exn) :
  exists text, endpoint_text (Raise e) = "Error: " +:+ text
               /\ text = str_slice_to 50 (str_exn e)
               /\ (String.length text <= 50)%nat.
Proof. eexists; repeat split. apply length_str_slice_to. Qed.

(** C5: unless interrupted, the secondary probe returns a mapping whose
    keys are exactly the URLs of its fixed list; the entry of a URL is
    "OK", "Status <code>" or "Error: " followed by at most the first 50
    characters of the exception text, and it depends on the answer of that
    URL alone: two worlds that agree on a URL yield the same entry for it
    whatever happens at the other URL. *)
Theorem secondary_probe_independent :
  forall api : string -> exec response,
    uninterrupted api = true ->
    exists results,
      result (check_api_endpoints api) = Return results
      /\ dict_keys results = endpoints
      /\ (forall ep, In ep endpoints ->
            match api ep with
            | Return r =>
                dict_get ep results
                = Some (if (status r =? 200)%Z then "OK"
                        else "Status " +:+ py_str (status r))
            | Raise e =>
                exists text,
                  dict_get ep results = Some ("Error: " +:+ text)
                  /\ text = str_slice_to 50 (str_exn e)
                  /\ (String.length text <= 50)%nat
            end)
      /\ (forall api' : string -> exec response,
            uninterrupted api' = true ->
            exists results',
              result (check_api_endpoints api') = Return results'
              /\ forall ep, In ep endpoints -> api' ep = api ep ->
                   dict_get ep results' = dict_get ep results).
Proof.
  intros api H.
  rewrite (check_api_endpoints_spec api H).
  eexists; split; [reflexivity |]; split; [reflexivity |]; split.
  - intros ep Hin.
    assert (Hget : dict_get ep (map (fun ep => (ep, endpoint_text (api ep))) endpoints)
                   = Some (endpoint_text (api ep))).
    { destruct Hin as [<- | [<- | []]]; reflexivity. }
    rewrite Hget.
    destruct (api ep) as [r | e]; [reflexivity |].
    destruct (endpoint_text_error_bounded e) as [text [E [E' L]]].
    exists text. rewrite E. auto.
  - intros api' H'.
    rewrite (check_api_endpoints_spec api' H').
    eexists; split; [reflexivity |].
    intros ep Hin Heq.
    destruct Hin as [<- | [<- | []]]; simpl; rewrite Heq; reflexivity.
Qed.

Lemma secondary_probe_independent_witness :
  exists results,
    result (check_api_endpoints flaky_api) = Return results
    /\ dict_keys results = endpoints
    /\ dict_get "http://localhost:5173/api/space-weather/comprehensive" results
       = Some "Error: HTTPConnectionPool(host='localhost', port=5173): R"
    /\ dict_get "http://localhost:5173/api/solar-wind/current" results
       = Some "Status 503".
Proof.
  destruct (secondary_probe_independent flaky_api eq_refl)
    as [results [Hres [Hkeys [Hget _]]]].
  exists results. split; [exact Hres |]. split; [exact Hkeys |]. split.
  - destruct (Hget "http://localhost:5173/api/space-weather/comprehensive")
      as [text [Hg [Ht _]]]; [left; reflexivity |].
    rewrite Hg, Ht. reflexivity.
  - apply (Hget "http://localhost:5173/api/solar-wind/current").
    right; left; reflexivity.
Defined.

End SecondaryProbe.

(** * The health poller: one iteration *)
Section Iteration.
Import HealthPoller Observations Samples.

(** The verdict of the primary probe on an answer that is not Ctrl+C. *)
Lemma check_stream_accessible_returns (answer : exec response) :
  is_interrupt answer = false ->
  exists accessible message,
    check_stream_accessible answer = (Return (accessible, message), [Get STREAM_URL]).
Proof.
  destruct answer as [r | [text | text |]]; intros H; try discriminate H.
  - rewrite check_stream_accessible_response.
    destruct (status r =? 200)%Z; eauto.
  - rewrite check_stream_accessible_raise; eauto.
  - rewrite check_stream_accessible_raise; eauto.
Qed.

Lemma check_stream_accessible_trace (answer : exec response) :
  trace (check_stream_accessible answer) = [Get STREAM_URL].
Proof.
  destruct answer as [r | e].
  - now rewrite check_stream_accessible_response.
  - now rewrite check_stream_accessible_raise.
Qed.

Lemma probe_step_ok t n message :
  result (check_stream_accessible (primary t)) = Return (true, message) ->
  probe_step t n
  = (Return 0%Z, [Get STREAM_URL; Print (status_line (now_primary t) "OK" message)]).
Proof.
  intros H. unfold probe_step.
  rewrite (M_eta (check_stream_accessible (primary t))), H,
    check_stream_accessible_trace.
  reflexivity.
Qed.

Lemma probe_step_error t n message :
  result (check_stream_accessible (primary t)) = Return (false, message) ->
  probe_step t n
  = (Return (n + 1)%Z,
     Get STREAM_URL :: Print (status_line (now_primary t) "ERROR" message)
       :: (if (3 <=? n + 1)%Z then advisory_lines t else [])).
Proof.
  intros H. unfold probe_step.
  rewrite (M_eta (check_stream_accessible (primary t))), H,
    check_stream_accessible_trace.
  unfold print_status, print, emit, ret, bind, advisory_lines.
  destruct (3 <=? n + 1)%Z; reflexivity.
Qed.

Lemma probe_step_raise t n e :
  result (check_stream_accessible (primary t)) = Raise e ->
  probe_step t n = (Raise e, [Get STREAM_URL]).
Proof.
  intros H. unfold probe_step.
  rewrite (M_eta (check_stream_accessible (primary t))), H,
    check_stream_accessible_trace.
  reflexivity.
Qed.

Lemma status_line_is_not_hint timestamp status message :
  String.eqb (status_line timestamp status message) ADVISORY_HINT = false.
Proof.
  unfold status_line.
  destruct (String.eqb status "OK"); [reflexivity |].
  destruct (String.eqb status "WARNING"); reflexivity.
Qed.

Lemma advisory_printed_app tr tr' :
  advisory_printed (tr ++ tr') = advisory_printed tr || advisory_printed tr'.
Proof. unfold advisory_printed, printed. apply existsb_app. Qed.

Lemma advisory_printed_lines t : advisory_printed (advisory_lines t) = true.
Proof.
  unfold advisory_printed, printed, advisory_lines, existsb.
  rewrite status_line_is_not_hint, String.eqb_refl. reflexivity.
Qed.

End Iteration.

Section IterationResults.
Import HealthPoller Observations Samples.

Lemma uninterrupted_existsb (api : string -> exec response) :
  existsb (fun ep => is_interrupt (api ep)) endpoints = negb (uninterrupted api).
Proof.
  unfold uninterrupted, endpoints; simpl.
  destruct (is_interrupt (api _)), (is_interrupt (api _)); reflexivity.
Qed.

Lemma check_api_endpoints_head api :
  exists rest,
    trace (check_api_endpoints api)
    = Get "http://localhost:5173/api/space-weather/comprehensive" :: rest.
Proof.
  unfold check_api_endpoints, endpoints; simpl.
  rewrite probe_endpoint_spec.
  destruct (is_interrupt (api _)); simpl; [eauto |].
  rewrite probe_endpoint_spec.
  destruct (is_interrupt (api _)); simpl; eauto.
Qed.

Lemma check_api_endpoints_interrupted api :
  uninterrupted api = false ->
  result (check_api_endpoints api) = Raise KeyboardInterrupt.
Proof.
  unfold uninterrupted, check_api_endpoints, endpoints; simpl.
  rewrite probe_endpoint_spec.
  destruct (is_interrupt (api _)); simpl; [reflexivity |].
  rewrite probe_endpoint_spec.
  destruct (is_interrupt (api _)); simpl; [reflexivity | discriminate].
Qed.

Lemma for_each_returns {A} (xs : list A) (body : A -> M unit) :
  (forall x, result (body x) = Return tt) ->
  result (for_each xs body) = Return tt.
Proof.
  intros H. induction xs as [| x xs IH]; [reflexivity |].
  simpl. rewrite result_bind, H. exact IH.
Qed.

Lemma api_step_result t :
  result (api_step t)
  = if api_gate (time_time t) && negb (uninterrupted (api t))
    then Raise KeyboardInterrupt else Return tt.
Proof.
  unfold api_step. destruct (api_gate (time_time t)); [| reflexivity].
  rewrite result_bind. simpl.
  destruct (uninterrupted (api t)) eqn:U; simpl.
  - rewrite (check_api_endpoints_spec _ U). cbn [result fst].
    apply for_each_returns. intros [endpoint text].
    destruct (String.eqb text "OK"); reflexivity.
  - now rewrite (check_api_endpoints_interrupted _ U).
Qed.

Lemma api_step_probed t :
  secondary_probed (trace (api_step t)) = api_gate (time_time t).
Proof.
  unfold api_step. destruct (api_gate (time_time t)); [| reflexivity].
  rewrite trace_bind.
  destruct (check_api_endpoints_head (api t)) as [rest ->].
  reflexivity.
Qed.

Lemma time_sleep_result o seconds :
  result (time_sleep o seconds)
  = match o with Slept => Return tt | SleepInterrupted => Raise KeyboardInterrupt end.
Proof. destruct o; reflexivity. Qed.

Lemma probe_step_result t n :
  result (probe_step t n)
  = match result (check_stream_accessible (primary t)) with
    | Return (true, _) => Return 0%Z
    | Return (false, _) => Return (n + 1)%Z
    | Raise e => Raise e
    end.
Proof.
  destruct (result (check_stream_accessible (primary t))) as [[[] message] | e] eqn:E.
  - now rewrite (probe_step_ok t n message E).
  - now rewrite (probe_step_error t n message E).
  - now rewrite (probe_step_raise t n e E).
Qed.

Lemma probe_step_interrupt t n :
  result (probe_step t n)
  = (if is_interrupt (primary t) then Raise KeyboardInterrupt
     else result (probe_step t n)).
Proof.
  destruct (primary t) as [r | [text | text |]] eqn:E; try reflexivity.
  rewrite probe_step_result, E, check_stream_accessible_raise. reflexivity.
Qed.

Lemma probe_step_returns t n :
  is_interrupt (primary t) = false ->
  exists n', result (probe_step t n) = Return n' /\ (n' = 0%Z \/ n' = (n + 1)%Z).
Proof.
  intros H. destruct (check_stream_accessible_returns _ H) as [b [message E]].
  rewrite probe_step_result, E. simpl. destruct b; eauto.
Qed.

Lemma iteration_result t n :
  result (iteration t n)
  = if interrupted t then Raise KeyboardInterrupt else result (probe_step t n).
Proof.
  unfold iteration, interrupted.
  rewrite result_bind, uninterrupted_existsb.
  destruct (is_interrupt (primary t)) eqn:P; simpl.
  - rewrite probe_step_interrupt, P. reflexivity.
  - destruct (probe_step_returns t n P) as [n' [-> _]].
    rewrite result_bind, api_step_result.
    destruct (api_gate (time_time t) && negb (uninterrupted (api t))); simpl;
      [reflexivity |].
    rewrite result_bind, time_sleep_result.
    destruct (sleep t); reflexivity.
Qed.

Lemma iteration_returns t n n' :
  result (iteration t n) = Return n' ->
  interrupted t = false /\ result (probe_step t n) = Return n'
  /\ (n' = 0%Z \/ n' = (n + 1)%Z).
Proof.
  rewrite iteration_result. destruct (interrupted t) eqn:I; [discriminate |].
  intros H. split; [reflexivity |]. split; [exact H |].
  unfold interrupted in I.
  destruct (is_interrupt (primary t)) eqn:P; [discriminate |].
  destruct (probe_step_returns t n P) as [m [E Hm]].
  rewrite E in H. injection H as <-. exact Hm.
Qed.

Lemma loop_cons t ticks n :
  result (loop (t :: ticks) n)
  = match result (iteration t n) with
    | Return n' => result (loop ticks n')
    | Raise e => Raise e
    end.
Proof. simpl. apply result_bind. Qed.

Lemma loop_nonnegative ticks :
  forall n n', (0 <= n)%Z -> result (loop ticks n) = Return n' -> (0 <= n')%Z.
Proof.
  induction ticks as [| t ticks IH]; intros n n' Hn H.
  - injection H as <-. exact Hn.
  - rewrite loop_cons in H.
    destruct (result (iteration t n)) as [m |] eqn:E; [| discriminate].
    apply iteration_returns in E as [_ [_ Hm]].
    apply (IH m n'); [lia | exact H].
Qed.

Lemma loop_down k :
  forall n, result (loop (repeat down_tick k) n) = Return (n + Z.of_nat k)%Z.
Proof.
  induction k as [| k IH]; intros n.
  - simpl. f_equal. lia.
  - change (repeat down_tick (S k)) with (down_tick :: repeat down_tick k).
    rewrite loop_cons, iteration_result.
    change (interrupted down_tick) with false; cbv iota.
    rewrite probe_step_result.
    change (result (check_stream_accessible (primary down_tick)))
      with (@Return (bool * string)
              (false, "Cannot connect to stream: "
                      +:+ "<urlopen error [Errno 61] Connection refused>")).
    cbv iota. rewrite IH. f_equal. lia.
Qed.

End IterationResults.

(** * The health poller: the claims about its loop *)
Section PollerLoop.
Import HealthPoller Observations Samples.

Lemma secondary_probed_app tr tr' :
  secondary_probed (tr ++ tr') = secondary_probed tr || secondary_probed tr'.
Proof. apply existsb_app. Qed.

Lemma check_api_endpoints_only_gets api :
  advisory_printed (trace (check_api_endpoints api)) = false.
Proof.
  unfold check_api_endpoints, endpoints; simpl.
  rewrite probe_endpoint_spec.
  destruct (is_interrupt (api _)); simpl; [reflexivity |].
  rewrite probe_endpoint_spec.
  destruct (is_interrupt (api _)); reflexivity.
Qed.

Lemma for_each_status_lines (results : dict string) (body : string * string -> M unit) :
  (forall x, exists ts st msg, body x = (Return tt, [Print (status_line ts st msg)])) ->
  advisory_printed (trace (for_each results body)) = false.
Proof.
  intros H. induction results as [| x results IH]; [reflexivity |].
  simpl. rewrite trace_bind, advisory_printed_app.
  destruct (H x) as [ts [st [msg ->]]].
  cbn [result trace fst snd]. rewrite IH.
  unfold advisory_printed, printed, existsb.
  now rewrite status_line_is_not_hint.
Qed.

Lemma api_step_no_advisory t : advisory_printed (trace (api_step t)) = false.
Proof.
  unfold api_step. destruct (api_gate (time_time t)); [| reflexivity].
  rewrite trace_bind, advisory_printed_app, check_api_endpoints_only_gets.
  destruct (result (check_api_endpoints (api t))); [| reflexivity].
  apply for_each_status_lines. intros [endpoint text].
  destruct (String.eqb text "OK"); unfold print_status; eauto.
Qed.

Lemma probe_step_advisory t n n' :
  result (probe_step t n) = Return n' ->
  advisory_printed (trace (probe_step t n)) = (3 <=? n')%Z.
Proof.
  destruct (result (check_stream_accessible (primary t))) as [[[] message] | e] eqn:E.
  - rewrite (probe_step_ok t n message E). intros [= <-].
    unfold advisory_printed, printed, trace, snd, existsb.
    now rewrite status_line_is_not_hint.
  - rewrite (probe_step_error t n message E). intros [= <-].
    unfold advisory_printed, printed, trace, snd.
    cbn [existsb]. rewrite status_line_is_not_hint.
    destruct (3 <=? n + 1)%Z; [apply advisory_printed_lines | reflexivity].
  - rewrite (probe_step_raise t n e E). discriminate.
Qed.

Lemma probe_step_not_secondary t n :
  secondary_probed (trace (probe_step t n)) = false.
Proof.
  destruct (result (check_stream_accessible (primary t))) as [[[] message] | e] eqn:E.
  - now rewrite (probe_step_ok t n message E).
  - rewrite (probe_step_error t n message E).
    destruct (3 <=? n + 1)%Z; reflexivity.
  - now rewrite (probe_step_raise t n e E).
Qed.

(** What an iteration leaves in the trace once the primary probe returned. *)
Lemma iteration_trace t n n' :
  result (probe_step t n) = Return n' ->
  exists tail,
    trace (iteration t n) = trace (probe_step t n) ++ trace (api_step t) ++ tail
    /\ (tail = [] \/ tail = [Sleep HEALTH_CHECK_INTERVAL]).
Proof.
  intros E. unfold iteration.
  rewrite trace_bind, E, trace_bind.
  destruct (result (api_step t)).
  - rewrite trace_bind. exists [Sleep HEALTH_CHECK_INTERVAL]. split; [| auto].
    destruct (sleep t); simpl; reflexivity.
  - exists []. auto.
Qed.

(** C3: the primary probe's verdict resets the counter to 0 (OK) or adds
    exactly 1 to it (ERROR); that value is what the iteration hands to the
    next one; the advisory is printed in an iteration exactly when the
    counter, as updated in that iteration, is at least 3; the counter is
    never negative, and it reaches every natural number. *)
Theorem consecutive_failure_counter :
  (forall t n message,
     result (check_stream_accessible (primary t)) = Return (true, message) ->
     result (probe_step t n) = Return 0%Z)
  /\ (forall t n message,
        result (check_stream_accessible (primary t)) = Return (false, message) ->
        result (probe_step t n) = Return (n + 1)%Z)
  /\ (forall t n n',
        result (iteration t n) = Return n' -> result (probe_step t n) = Return n')
  /\ (forall t n n',
        result (probe_step t n) = Return n' ->
        (advisory_printed (trace (iteration t n)) = true <-> (3 <= n')%Z))
  /\ (forall ticks n, result (loop ticks 0%Z) = Return n -> (0 <= n)%Z)
  /\ (forall k : nat, exists ticks, result (loop ticks 0%Z) = Return (Z.of_nat k)).
Proof.
  split; [| split; [| split; [| split; [| split]]]].
  - intros t n message H. rewrite (probe_step_ok t n message H). reflexivity.
  - intros t n message H. rewrite (probe_step_error t n message H). reflexivity.
  - intros t n n' H. apply iteration_returns in H. tauto.
  - intros t n n' H.
    destruct (iteration_trace t n n' H) as [tail [-> Htail]].
    rewrite !advisory_printed_app, (probe_step_advisory t n n' H),
      api_step_no_advisory.
    replace (advisory_printed tail) with false
      by (destruct Htail as [-> | ->]; reflexivity).
    rewrite !orb_false_r. apply Z.leb_le.
  - intros ticks n H. apply (loop_nonnegative ticks 0%Z n); [lia | exact H].
  - intros k. exists (repeat down_tick k). rewrite loop_down. f_equal.
Qed.

(** Two failures, then a success: the counter reads 1, 2, 0 and no advisory
    is printed; a third failure in a row prints it. *)
Lemma consecutive_failure_counter_witness :
  result (probe_step up_tick 2%Z) = Return 0%Z
  /\ result (probe_step down_tick 2%Z) = Return 3%Z
  /\ result (probe_step down_tick 0%Z) = Return 1%Z
  /\ (advisory_printed (trace (iteration down_tick 2%Z)) = true <-> (3 <= 3)%Z)
  /\ (advisory_printed (trace (iteration down_tick 1%Z)) = true <-> (3 <= 2)%Z)
  /\ (0 <= 0)%Z.
Proof.
  destruct consecutive_failure_counter as [Hok [Herr [Hnext [Hadv [Hpos _]]]]].
  split; [| split; [| split; [| split; [| split]]]].
  - apply (Hok up_tick 2%Z "Stream page is accessible"). reflexivity.
  - apply (Herr down_tick 2%Z
             ("Cannot connect to stream: " +:+ str_exn (URLError "<urlopen error [Errno 61] Connection refused>"))).
    reflexivity.
  - apply (Hnext down_tick 0%Z 1%Z). reflexivity.
  - apply (Hadv down_tick 2%Z 3%Z). reflexivity.
  - apply (Hadv down_tick 1%Z 2%Z). reflexivity.
  - apply (Hpos [up_tick; down_tick; up_tick] 0%Z). reflexivity.
Defined.

End PollerLoop.

(** * The health poller: the arithmetic of the gate *)
Section GateRemainder.
Import HealthPoller Observations Samples.

Lemma Qfloor_unique (y : Q) (z : Z) :
  (inject_Z z <= y)%Q -> (y < inject_Z (z + 1))%Q -> Qfloor y = z.
Proof.
  intros L U.
  pose proof (Qfloor_le y) as L'. pose proof (Qlt_floor y) as U'.
  assert (H1 : (inject_Z (Qfloor y) < inject_Z (z + 1))%Q) by (eapply Qle_lt_trans; eauto).
  assert (H2 : (inject_Z z < inject_Z (Qfloor y + 1))%Q) by (eapply Qle_lt_trans; eauto).
  rewrite <- Zlt_Qlt in H1, H2. lia.
Qed.

Lemma float_mod_decompose (x : Q) (m : Z) :
  (0 < m)%Z ->
  (x == float_mod x m + inject_Z m * inject_Z (Qfloor (x / inject_Z m)))%Q
  /\ (0 <= float_mod x m)%Q /\ (float_mod x m < inject_Z m)%Q.
Proof.
  intros Hm. unfold float_mod.
  set (M := inject_Z m). set (y := (x / M)%Q).
  assert (HM : (0 < M)%Q) by (change (inject_Z 0 < inject_Z m)%Q; rewrite <- Zlt_Qlt; exact Hm).
  assert (Hx : (x == y * M)%Q).
  { unfold y. rewrite Qmult_comm, Qmult_div_r; [reflexivity |]. lra. }
  pose proof (Qfloor_le y) as L. pose proof (Qlt_floor y) as U.
  rewrite inject_Z_plus in U. change (inject_Z 1) with 1%Q in U.
  rewrite inject_Z_mult. fold M.
  set (k := inject_Z (Qfloor y)) in *.
  split; [lra |].
  rewrite Hx. split; nra.
Qed.

Lemma float_mod_unique (x r : Q) (m k : Z) :
  (0 < m)%Z -> (0 <= r)%Q -> (r < inject_Z m)%Q ->
  (x == r + inject_Z m * inject_Z k)%Q ->
  (float_mod x m == r)%Q.
Proof.
  intros Hm R0 R1 Hx.
  assert (HM : (0 < inject_Z m)%Q) by (change (inject_Z 0 < inject_Z m)%Q; rewrite <- Zlt_Qlt; exact Hm).
  assert (F : Qfloor (x / inject_Z m) = k).
  { apply Qfloor_unique.
    - apply Qle_shift_div_l; [exact HM |]. rewrite Hx. lra.
    - apply Qlt_shift_div_r; [exact HM |]. rewrite Hx, inject_Z_plus.
      change (inject_Z 1) with 1%Q. lra. }
  unfold float_mod. rewrite F, inject_Z_mult, Hx. lra.
Qed.

Lemma Qlt_bool_true (a b : Q) : (a < b)%Q -> Qlt_bool a b = true.
Proof.
  intros H. unfold Qlt_bool. destruct (Qle_bool b a) eqn:E; [| reflexivity].
  apply Qle_bool_iff in E. lra.
Qed.

Lemma Qlt_bool_false (a b : Q) : (b <= a)%Q -> Qlt_bool a b = false.
Proof.
  intros H. unfold Qlt_bool. apply Qle_bool_iff in H. now rewrite H.
Qed.

Lemma api_gate_of_remainder (x r : Q) :
  (float_mod x 60 == r)%Q -> api_gate x = Qlt_bool r 30.
Proof.
  intros H. unfold api_gate, Qlt_bool.
  change (HEALTH_CHECK_INTERVAL * 2)%Z with 60%Z.
  change (inject_Z HEALTH_CHECK_INTERVAL) with 30%Q.
  f_equal. apply Qleb_comp; [reflexivity | exact H].
Qed.

Lemma api_gate_open_iff (x : Q) :
  api_gate x = true
  <-> exists (k : Z) (r : Q),
        (x == r + 60 * inject_Z k)%Q /\ (0 <= r)%Q /\ (r < 30)%Q.
Proof.
  assert (H60 : (0 < 60)%Z) by lia.
  split.
  - intros G.
    destruct (float_mod_decompose x 60 H60) as [D [L U]].
    exists (Qfloor (x / inject_Z 60)), (float_mod x 60).
    change (inject_Z 60) with 60%Q in D.
    split; [exact D |]. split; [exact L |].
    rewrite (api_gate_of_remainder x (float_mod x 60)) in G by reflexivity.
    unfold Qlt_bool in G.
    destruct (Qle_bool 30 (float_mod x 60)) eqn:E; [discriminate G |].
    apply Qnot_le_lt. intros Hle. apply Qle_bool_iff in Hle. congruence.
  - intros [k [r [D [L U]]]].
    rewrite (api_gate_of_remainder x r).
    + now apply Qlt_bool_true.
    + apply (float_mod_unique x r 60 k); [lia | exact L | | exact D].
      change (inject_Z 60) with 60%Q. lra.
Qed.

End GateRemainder.

Section PollerGateAndExit.
Import HealthPoller Observations Samples.

Lemma api_gate_Qeq (x y : Q) : (x == y)%Q -> api_gate x = api_gate y.
Proof.
  intros H. unfold api_gate, Qlt_bool, float_mod.
  assert (F : Qfloor (x / inject_Z (HEALTH_CHECK_INTERVAL * 2))
              = Qfloor (y / inject_Z (HEALTH_CHECK_INTERVAL * 2))).
  { apply Qfloor_comp. apply Qdiv_comp; [exact H | reflexivity]. }
  rewrite F. f_equal.
  apply Qleb_comp; [reflexivity |].
  apply Qplus_comp; [exact H | reflexivity].
Qed.

(** C4: in an iteration whose primary probe returned, the API endpoints are
    fetched exactly when the clock reading modulo 60 seconds (twice the
    interval) is below 30 (the interval): when the reading is [r + 60 * k]
    for a whole number [k] and some [0 <= r < 30].  Neither the verdict of
    the primary probe nor the counter enters: two iterations that read the
    same clock fetch the endpoints both or neither. *)
Theorem secondary_probe_gate :
  (forall t n,
     is_interrupt (primary t) = false ->
     (secondary_probed (trace (iteration t n)) = true
      <-> exists (k : Z) (r : Q),
            (time_time t == r + 60 * inject_Z k)%Q /\ (0 <= r)%Q /\ (r < 30)%Q))
  /\ (forall t1 t2 n1 n2,
        is_interrupt (primary t1) = false ->
        is_interrupt (primary t2) = false ->
        (time_time t1 == time_time t2)%Q ->
        secondary_probed (trace (iteration t1 n1))
        = secondary_probed (trace (iteration t2 n2))).
Proof.
  assert (Hgate : forall t n, is_interrupt (primary t) = false ->
            secondary_probed (trace (iteration t n)) = api_gate (time_time t)).
  { intros t n P.
    destruct (probe_step_returns t n P) as [n' [E _]].
    destruct (iteration_trace t n n' E) as [tail [-> Htail]].
    rewrite !secondary_probed_app, probe_step_not_secondary, api_step_probed.
    replace (secondary_probed tail) with false
      by (destruct Htail as [-> | ->]; reflexivity).
    now rewrite orb_false_r. }
  split.
  - intros t n P. rewrite (Hgate t n P). apply api_gate_open_iff.
  - intros t1 t2 n1 n2 P1 P2 Heq.
    rewrite (Hgate t1 n1 P1), (Hgate t2 n2 P2).
    now apply api_gate_Qeq.
Qed.

(** [down_tick] reads the clock at 1700000045 = 5 + 60 * 28333334 and so
    fetches the endpoints; [up_tick] and [down_tick] differ in the verdict
    of the primary probe, and at one clock reading both do the same. *)
Lemma secondary_probe_gate_witness :
  secondary_probed (trace (iteration down_tick 5%Z)) = true
  /\ (secondary_probed (trace (iteration up_tick 0%Z)) = true
      <-> exists (k : Z) (r : Q),
            (time_time up_tick == r + 60 * inject_Z k)%Q /\ (0 <= r)%Q /\ (r < 30)%Q)
  /\ secondary_probed (trace (iteration down_tick 2%Z))
     = secondary_probed
         (trace (iteration {| primary := Return ok_response;
                              now_primary := now_primary down_tick;
                              now_advisory := now_advisory down_tick;
                              time_time := 3400000090 # 2;
                              api := api down_tick;
                              now_api := now_api down_tick;
                              sleep := Slept |} 0%Z)).
Proof.
  destruct secondary_probe_gate as [Hgate Hsame].
  split; [| split].
  - apply (Hgate down_tick 5%Z); [reflexivity |].
    exists 28333334%Z, 5%Q. repeat split; reflexivity || discriminate.
  - apply (Hgate up_tick 0%Z). reflexivity.
  - apply Hsame; reflexivity.
Defined.

Lemma loop_result ticks :
  forall n,
    match result (loop ticks n) with
    | Return _ => existsb interrupted ticks = false
    | Raise e => e = KeyboardInterrupt /\ existsb interrupted ticks = true
    end.
Proof.
  induction ticks as [| t ticks IH]; intros n; [reflexivity |].
  rewrite loop_cons, iteration_result. simpl existsb.
  destruct (interrupted t) eqn:I; [auto |].
  unfold interrupted in I.
  destruct (is_interrupt (primary t)) eqn:P; [discriminate |].
  destruct (probe_step_returns t n P) as [n' [-> _]].
  apply IH.
Qed.

Lemma main_process ticks :
  fst (main ticks)
  = match result (loop ticks 0%Z) with
    | Return n => Running n
    | Raise KeyboardInterrupt => Exited 0
    | Raise e => Uncaught e
    end.
Proof.
  unfold main.
  rewrite (M_eta (bind banner _)), result_bind.
  change (result banner) with (@Return unit tt). cbv iota.
  destruct (result (loop ticks 0%Z)) as [n | [text | text |]]; reflexivity.
Qed.

Lemma main_trace_interrupted ticks :
  result (loop ticks 0%Z) = Raise KeyboardInterrupt ->
  exists tr, snd (main ticks) = tr ++ [Print STOPPED].
Proof.
  intros H. unfold main.
  rewrite (M_eta (bind banner _)), result_bind.
  change (result banner) with (@Return unit tt). cbv iota.
  rewrite H. eexists. reflexivity.
Qed.

(** C8: whatever the probes answer, the loop goes on to its next iteration;
    the process leaves the loop only when Ctrl+C arrives, and then it
    prints its farewell and exits with status 0.  No other exception
    escapes. *)
Theorem poller_stops_only_on_interrupt :
  forall ticks,
    (existsb interrupted ticks = false -> exists n, fst (main ticks) = Running n)
    /\ (existsb interrupted ticks = true ->
          fst (main ticks) = Exited 0
          /\ exists tr, snd (main ticks) = tr ++ [Print STOPPED])
    /\ (forall code, fst (main ticks) = Exited code ->
          code = 0%Z /\ existsb interrupted ticks = true)
    /\ (forall e, fst (main ticks) <> Uncaught e).
Proof.
  intros ticks. rewrite main_process.
  pose proof (loop_result ticks 0%Z) as H.
  pose proof (main_trace_interrupted ticks) as Htr.
  destruct (result (loop ticks 0%Z)) as [n | e].
  - rewrite H. split; [eauto |]. split; [discriminate |].
    split; [discriminate |]. discriminate.
  - destruct H as [-> H]. rewrite H.
    split; [discriminate |]. split; [auto |].
    split; [| discriminate].
    intros code [= <-]. auto.
Qed.

Lemma poller_stops_only_on_interrupt_witness :
  (exists n, fst (main [down_tick; down_tick; up_tick; down_tick]) = Running n)
  /\ fst (main [down_tick; up_tick; stop_tick; up_tick]) = Exited 0
  /\ (0%Z = 0%Z /\ existsb interrupted [stop_tick] = true).
Proof.
  split; [| split].
  - apply (poller_stops_only_on_interrupt [down_tick; down_tick; up_tick; down_tick]).
    reflexivity.
  - apply (poller_stops_only_on_interrupt [down_tick; up_tick; stop_tick; up_tick]).
    reflexivity.
  - apply (proj1 (proj2 (proj2 (poller_stops_only_on_interrupt [stop_tick]))) 0%Z).
    reflexivity.
Defined.

End PollerGateAndExit.

(** * Laws of [try_except], traces and dictionaries *)
Section Handlers.
Context {A : Type}.
Implicit Types (m : M A) (h : exn -> option (M A)).

Lemma result_try_except m h :
  result (try_except m h)
  = match result m with
    | Return a => Return a
    | Raise e => match h e with Some hm => result hm | None => Raise e end
    end.
Proof.
  destruct m as [[a | e] tr]; simpl; [reflexivity |].
  destruct (h e) as [[r tr'] |]; reflexivity.
Qed.

Lemma trace_try_except m h :
  trace (try_except m h)
  = trace m ++ match result m with
               | Return _ => []
               | Raise e => match h e with Some hm => trace hm | None => [] end
               end.
Proof.
  destruct m as [[a | e] tr]; simpl; [now rewrite app_nil_r |].
  destruct (h e) as [[r tr'] |]; simpl; [| rewrite app_nil_r]; reflexivity.
Qed.
End Handlers.

Lemma printed_app text tr tr' :
  printed text (tr ++ tr') = printed text tr || printed text tr'.
Proof. apply existsb_app. Qed.

Lemma printed_last text tr : printed text (tr ++ [Print text]) = true.
Proof.
  rewrite printed_app. unfold printed at 2, existsb.
  rewrite String.eqb_refl. apply orb_true_r.
Qed.

Lemma printed_app_r text tr tr' :
  printed text tr' = true -> printed text (tr ++ tr') = true.
Proof. intros H. rewrite printed_app, H. apply orb_true_r. Qed.

Lemma printed_cons_r text ev tr :
  printed text tr = true -> printed text (ev :: tr) = true.
Proof. intros H. apply (printed_app_r text [ev] tr H). Qed.

Lemma printed_middle text tr tr' : printed text (tr ++ Print text :: tr') = true.
Proof.
  apply printed_app_r. unfold printed; simpl. now rewrite String.eqb_refl.
Qed.

Section Dictionaries.
Context {V : Type}.
Implicit Types (d : dict V) (k : string) (v : V).

Lemma dict_get_set_eq k v d : dict_get k (dict_set k v d) = Some v.
Proof.
  induction d as [| [k' v'] d IH]; simpl.
  - now rewrite String.eqb_refl.
  - destruct (String.eqb k k') eqn:E; simpl.
    + now rewrite String.eqb_refl.
    + now rewrite E.
Qed.

Lemma dict_get_set_ne k k' v d :
  k <> k' -> dict_get k' (dict_set k v d) = dict_get k' d.
Proof.
  intros N. induction d as [| [k0 v0] d IH]; simpl.
  - apply String.eqb_neq in N. rewrite String.eqb_sym in N. now rewrite N.
  - destruct (String.eqb k k0) eqn:E; simpl.
    + apply String.eqb_eq in E. subst k0.
      apply String.eqb_neq in N. rewrite String.eqb_sym in N. now rewrite N.
    + now rewrite IH.
Qed.

Lemma dict_keys_set_fresh k v d :
  ~ In k (dict_keys d) -> dict_keys (dict_set k v d) = dict_keys d ++ [k].
Proof.
  induction d as [| [k' v'] d IH]; simpl; intros N; [reflexivity |].
  destruct (String.eqb k k') eqn:E.
  - apply String.eqb_eq in E. subst. tauto.
  - simpl. rewrite IH; [reflexivity | tauto].
Qed.
End Dictionaries.

(** * The setup helper: the loop over the checks *)
Section CheckLoop.
Import SetupHelper Observations Samples.

Lemma run_check_result e name (f : check) results :
  result (run_check e name f results)
  = if raises_only_Exception (result (f e))
    then Return (dict_set name (recorded (result (f e))) results)
    else Raise KeyboardInterrupt.
Proof.
  unfold run_check.
  rewrite result_bind. cbn [print emit result fst].
  rewrite result_try_except, result_bind.
  destruct (result (f e)) as [v | [text | text |]]; reflexivity.
Qed.

Lemma run_check_trace e name (f : check) results :
  trace (run_check e name f results)
  = Print (checking_line name) :: trace (f e)
    ++ match result (f e) with
       | Return _ => []
       | Raise ex => if is_Exception ex then [Print (fault_line name ex)] else []
       end.
Proof.
  unfold run_check.
  rewrite trace_bind. cbn [print emit result trace fst snd app].
  rewrite trace_try_except, trace_bind, result_bind.
  destruct (result (f e)) as [v | [text | text |]]; cbn [ret trace snd];
    rewrite ?app_nil_r; reflexivity.
Qed.

Lemma run_checks_cons e name (f : check) table results :
  run_checks e ((name, f) :: table) results
  = bind (run_check e name f results) (fun results' => run_checks e table results').
Proof. reflexivity. Qed.

Lemma run_checks_result e table :
  forall results,
    result (run_checks e table results)
    = if calm e table then Return (tabulate e table results)
      else Raise KeyboardInterrupt.
Proof.
  induction table as [| [name f] table IH]; intros results; [reflexivity |].
  rewrite run_checks_cons, result_bind, run_check_result.
  change (calm e ((name, f) :: table))
    with (raises_only_Exception (result (f e)) && calm e table).
  destruct (raises_only_Exception (result (f e))); [apply IH | reflexivity].
Qed.

Lemma tabulate_cons e k (f : check) table results :
  tabulate e ((k, f) :: table) results
  = tabulate e table (dict_set k (recorded (result (f e))) results).
Proof. reflexivity. Qed.

Lemma tabulate_get_other e table :
  forall results name,
    ~ In name (dict_keys table) ->
    dict_get name (tabulate e table results) = dict_get name results.
Proof.
  induction table as [| [k f] table IH]; intros results name N; [reflexivity |].
  simpl in N. rewrite tabulate_cons.
  rewrite IH by tauto.
  apply dict_get_set_ne. intros ->. tauto.
Qed.

Lemma tabulate_get e table :
  forall results name (f : check),
    List.NoDup (dict_keys table) ->
    In (name, f) table ->
    dict_get name (tabulate e table results) = Some (recorded (result (f e))).
Proof.
  induction table as [| [k g] table IH]; intros results name f D Hin; [destruct Hin |].
  simpl in D. apply List.NoDup_cons_iff in D as [Hk D].
  rewrite tabulate_cons.
  destruct Hin as [[= -> ->] | Hin].
  - rewrite tabulate_get_other by exact Hk. apply dict_get_set_eq.
  - apply IH; assumption.
Qed.

Lemma tabulate_keys e table :
  forall results,
    List.NoDup (dict_keys results ++ dict_keys table) ->
    dict_keys (tabulate e table results) = dict_keys results ++ dict_keys table.
Proof.
  induction table as [| [k f] table IH]; intros results D.
  - simpl. now rewrite app_nil_r.
  - rewrite tabulate_cons.
    assert (Hk : ~ In k (dict_keys results)).
    { intros Hin. apply List.NoDup_remove_2 in D. apply D.
      apply in_or_app. now left. }
    rewrite IH; rewrite dict_keys_set_fresh by exact Hk.
    + now rewrite <- app_assoc.
    + rewrite <- app_assoc. exact D.
Qed.

Lemma run_checks_fault_printed e table :
  forall results name (f : check) ex,
    calm e table = true ->
    In (name, f) table ->
    result (f e) = Raise ex ->
    printed (fault_line name ex) (trace (run_checks e table results)) = true.
Proof.
  induction table as [| [k g] table IH]; intros results name f ex C Hin R;
    [destruct Hin |].
  unfold calm in C; simpl in C. apply andb_true_iff in C as [Cg C].
  rewrite run_checks_cons, trace_bind, printed_app, run_check_result, Cg.
  destruct Hin as [[= -> ->] | Hin].
  - rewrite run_check_trace, R. rewrite R in Cg. simpl in Cg. rewrite Cg.
    rewrite app_comm_cons, printed_last. reflexivity.
  - rewrite (IH _ name f ex C Hin R). apply orb_true_r.
Qed.

End CheckLoop.

(** * The setup helper: [main] *)
Section SetupMain.
Import SetupHelper Observations Samples.

Lemma bind_returns {A B} (m : M A) (k : A -> M B) a :
  result m = Return a -> bind m k = (result (k a), trace m ++ trace (k a)).
Proof.
  intros H. rewrite (M_eta m), H. apply bind_Return.
Qed.

Lemma bind_raises {A B} (m : M A) (k : A -> M B) e :
  result m = Raise e -> bind m k = (Raise e, trace m).
Proof.
  intros H. rewrite (M_eta m), H. reflexivity.
Qed.

Lemma generate_result e :
  result (generate_obs_settings_template e)
  = match open_template e, dump_template e with
    | Return _, Dumped => Return (template_path e)
    | Return _, DumpFailed _ text => Raise (Exception text)
    | Raise ex, _ => Raise ex
    end.
Proof.
  unfold generate_obs_settings_template, ask.
  destruct (open_template e) as [[] | ex]; [| reflexivity].
  destruct (dump_template e); reflexivity.
Qed.

Lemma generate_step_result e :
  result (generate_step e)
  = if raises_only_Exception (open_template e) then Return tt
    else Raise KeyboardInterrupt.
Proof.
  unfold generate_step.
  rewrite !result_bind. cbn [print emit result fst].
  rewrite result_try_except, result_bind, generate_result.
  destruct (open_template e) as [[] | [text | text |]]; try reflexivity.
  destruct (dump_template e); reflexivity.
Qed.

Lemma summary_result results : result (summary results) = Return tt.
Proof. unfold summary. destruct (all_values results); reflexivity. Qed.

Lemma summary_trace results :
  exists before after,
    trace (summary results)
    = before ++ Print (if all_values results then ALL_PASSED else SOME_FAILED) :: after
    /\ before = trace (print_header "Setup Summary")
    /\ printed ALL_PASSED before = false
    /\ printed ALL_PASSED after = false.
Proof.
  unfold summary. destruct (all_values results);
    eexists; eexists; (split; [reflexivity |]); repeat split.
Qed.

Lemma summary_title_printed results :
  printed SUMMARY_TITLE (trace (summary results)) = true.
Proof. unfold summary. destruct (all_values results); reflexivity. Qed.

Lemma main_over_unfold table e :
  main_over table e
  = bind (print_header "Heliosinger OBS Setup Helper") (fun _ =>
    bind (print ("Checking system requirements..." +:+ nl)) (fun _ =>
    bind (run_checks e table []) (fun results =>
    bind (generate_step e) (fun _ =>
    bind print_setup_instructions (fun _ =>
    bind print_troubleshooting (fun _ => summary results)))))).
Proof. reflexivity. Qed.

Lemma main_over_result table e :
  result (main_over table e)
  = if calm e table && raises_only_Exception (open_template e)
    then Return tt else Raise KeyboardInterrupt.
Proof.
  rewrite main_over_unfold.
  rewrite result_bind. change (result (print_header _)) with (@Return unit tt).
  cbv iota. rewrite result_bind. cbn [print emit result fst].
  rewrite result_bind, run_checks_result.
  destruct (calm e table); [| reflexivity].
  rewrite result_bind, generate_step_result.
  destruct (raises_only_Exception (open_template e)); [| reflexivity].
  rewrite result_bind.
  change (result print_setup_instructions) with (@Return unit tt). cbv iota.
  rewrite result_bind.
  change (result print_troubleshooting) with (@Return unit tt). cbv iota.
  apply summary_result.
Qed.

Lemma main_over_trace table e :
  calm e table = true ->
  raises_only_Exception (open_template e) = true ->
  trace (main_over table e)
  = trace (print_header "Heliosinger OBS Setup Helper")
    ++ Print ("Checking system requirements..." +:+ nl)
    :: trace (run_checks e table [])
    ++ trace (generate_step e)
    ++ trace print_setup_instructions
    ++ trace print_troubleshooting
    ++ trace (summary (tabulate e table [])).
Proof.
  intros C O. rewrite main_over_unfold.
  rewrite trace_bind. change (result (print_header _)) with (@Return unit tt).
  cbv iota. f_equal.
  rewrite trace_bind. cbn [print emit result trace fst snd app]. f_equal.
  rewrite trace_bind, run_checks_result, C. f_equal.
  rewrite trace_bind, generate_step_result, O. f_equal.
  rewrite trace_bind.
  change (result print_setup_instructions) with (@Return unit tt). cbv iota.
  f_equal.
  rewrite trace_bind.
  change (result print_troubleshooting) with (@Return unit tt). cbv iota.
  reflexivity.
Qed.

End SetupMain.

(** * The setup helper: what the checks print and return *)
Section Checks.
Import SetupHelper Observations Samples.

Lemma check_obs_installed_quiet e :
  printed ALL_PASSED (trace (check_obs_installed e)) = false.
Proof.
  unfold check_obs_installed, obs_paths, find_obs.
  repeat (destruct (path_exists e _); [reflexivity |]). reflexivity.
Qed.

Lemma check_hardware_encoding_quiet e :
  printed ALL_PASSED (trace (check_hardware_encoding e)) = false.
Proof.
  unfold check_hardware_encoding, ask.
  destruct (system_profiler e) as [c | [text | text |]]; try reflexivity.
  cbn [bind try_except]. 
  destruct (str_in "Metal" (stdout c)); reflexivity.
Qed.

Lemma check_dev_server_quiet e :
  printed ALL_PASSED (trace (check_dev_server e)) = false.
Proof.
  unfold check_dev_server, ask, urlopen.
  destruct (connect_ex e) as [z | [text | text |]]; try reflexivity.
  cbn [bind try_except].
  destruct (z =? 0)%Z; [| reflexivity].
  destruct (stream_page e) as [r | ex]; [| reflexivity].
  cbn [bind try_except].
  destruct (status r =? 200)%Z; reflexivity.
Qed.

Lemma check_obs_config_quiet e :
  printed ALL_PASSED (trace (check_obs_config e)) = false.
Proof.
  unfold check_obs_config, ask.
  destruct (Path_exists e (OBS_CONFIG_BASE e)) as [[|] | ex]; try reflexivity.
  destruct (Path_exists e (OBS_BASIC_PROFILES e)) as [[|] | ex]; try reflexivity.
  destruct (iterdir_profiles e) as [[| p ps] | ex]; reflexivity.
Qed.

Lemma check_system_resources_quiet e :
  printed ALL_PASSED (trace (check_system_resources e)) = false.
Proof.
  unfold check_system_resources, ask.
  destruct (String.eqb (platform_system e) "Darwin").
  - destruct (sysctl_memsize e) as [c | [text | text |]]; try reflexivity.
    cbn [bind try_except].
    destruct (returncode c =? 0)%Z.
    + destruct (int_of_stripped e (stdout c)) as [n | [text | text |]]; try reflexivity.
      destruct (which_caffeinate e) as [w | [text | text |]]; try reflexivity.
      cbn [bind try_except].
      destruct (returncode w =? 0)%Z; reflexivity.
    + destruct (which_caffeinate e) as [w | [text | text |]]; try reflexivity.
      cbn [bind try_except].
      destruct (returncode w =? 0)%Z; reflexivity.
  - destruct (which_caffeinate e) as [w | [text | text |]]; try reflexivity.
    cbn [bind try_except].
    destruct (returncode w =? 0)%Z; reflexivity.
Qed.

Lemma check_system_resources_result e :
  result (check_system_resources e) = Return PyNone
  \/ result (check_system_resources e) = Raise KeyboardInterrupt.
Proof.
  unfold check_system_resources, ask.
  destruct (String.eqb (platform_system e) "Darwin").
  - destruct (sysctl_memsize e) as [c | [text | text |]]; auto.
    cbn [bind try_except].
    destruct (returncode c =? 0)%Z.
    + destruct (int_of_stripped e (stdout c)) as [n | [text | text |]]; auto.
      destruct (which_caffeinate e) as [w | [text | text |]]; auto.
      cbn [bind try_except].
      destruct (returncode w =? 0)%Z; auto.
    + destruct (which_caffeinate e) as [w | [text | text |]]; auto.
      cbn [bind try_except].
      destruct (returncode w =? 0)%Z; auto.
  - destruct (which_caffeinate e) as [w | [text | text |]]; auto.
    cbn [bind try_except].
    destruct (returncode w =? 0)%Z; auto.
Qed.

Lemma checks_names_distinct : List.NoDup (dict_keys checks).
Proof.
  unfold checks, dict_keys; simpl.
  repeat (apply List.NoDup_cons; [simpl; intuition discriminate |]).
  apply List.NoDup_nil.
Qed.

Lemma all_values_false (d : dict pyvalue) k v :
  dict_get k d = Some v -> truthy v = false -> all_values d = false.
Proof.
  unfold all_values, dict_values.
  induction d as [| [k' v'] d IH]; simpl; [discriminate |].
  destruct (String.eqb k k').
  - intros [= ->] ->. reflexivity.
  - intros H T. rewrite (IH H T). apply andb_false_r.
Qed.

Lemma printed_bind {A B} text (m : M A) (k : A -> M B) :
  printed text (trace (bind m k))
  = printed text (trace m)
    || match result m with
       | Return a => printed text (trace (k a))
       | Raise _ => false
       end.
Proof.
  rewrite trace_bind, printed_app. destruct (result m); reflexivity.
Qed.

Lemma run_checks_quiet e table :
  Forall (fun entry : string * check =>
            printed ALL_PASSED (trace (snd entry e)) = false) table ->
  forall results, printed ALL_PASSED (trace (run_checks e table results)) = false.
Proof.
  induction 1 as [| [name f] table Hf _ IH]; intros results; [reflexivity |].
  rewrite run_checks_cons, printed_bind, run_check_trace.
  simpl in Hf.
  change (printed ALL_PASSED (Print (checking_line name) :: ?tr))
    with (printed ALL_PASSED tr).
  rewrite printed_app, Hf.
  replace (printed ALL_PASSED _) with false.
  - destruct (result (run_check e name f results)); [apply IH | reflexivity].
  - destruct (result (f e)) as [v | [text | text |]]; reflexivity.
Qed.

Lemma generate_step_quiet e : printed ALL_PASSED (trace (generate_step e)) = false.
Proof.
  unfold generate_step, generate_obs_settings_template, ask.
  destruct (open_template e) as [[] | [text | text |]]; try reflexivity.
  destruct (dump_template e); reflexivity.
Qed.

Lemma checks_quiet e :
  Forall (fun entry : string * check =>
            printed ALL_PASSED (trace (snd entry e)) = false) checks.
Proof.
  unfold checks.
  constructor; [apply check_obs_installed_quiet |].
  constructor; [apply check_hardware_encoding_quiet |].
  constructor; [apply check_dev_server_quiet |].
  constructor; [apply check_obs_config_quiet |].
  constructor; [apply check_system_resources_quiet |].
  constructor.
Qed.

Lemma resources_entry e results :
  result (run_checks e checks []) = Return results ->
  dict_get "System Resources" results = Some PyNone.
Proof.
  rewrite run_checks_result.
  destruct (calm e checks) eqn:C; [| discriminate].
  intros [= Hres]. rewrite <- Hres.
  change (Some (recorded (result (check_system_resources e))) = Some PyNone).
  unfold calm, checks in C; simpl in C.
  rewrite !andb_true_iff in C. destruct C as [_ [_ [_ [_ [C _]]]]].
  destruct (check_system_resources_result e) as [R | R]; rewrite R in C |- *;
    [reflexivity | discriminate].
Qed.

End Checks.

(** * The setup helper: the claims *)
Section SetupClaims.
Import SetupHelper Observations Samples.

Lemma main_quiet e : printed ALL_PASSED (trace (main e)) = false.
Proof.
  unfold main. rewrite main_over_unfold.
  rewrite printed_bind. change (result (print_header _)) with (@Return unit tt).
  cbv iota.
  change (printed ALL_PASSED (trace (print_header _))) with false.
  rewrite orb_false_l, printed_bind. cbn [print emit result trace fst snd].
  change (printed ALL_PASSED [Print _]) with false.
  rewrite orb_false_l, printed_bind, (run_checks_quiet e checks (checks_quiet e)).
  rewrite orb_false_l.
  destruct (result (run_checks e checks [])) as [results |] eqn:R; [| reflexivity].
  rewrite printed_bind, generate_step_quiet, orb_false_l.
  destruct (result (generate_step e)); [| reflexivity].
  rewrite printed_bind.
  change (result print_setup_instructions) with (@Return unit tt). cbv iota.
  change (printed ALL_PASSED (trace print_setup_instructions)) with false.
  rewrite orb_false_l, printed_bind.
  change (result print_troubleshooting) with (@Return unit tt). cbv iota.
  change (printed ALL_PASSED (trace print_troubleshooting)) with false.
  rewrite orb_false_l.
  unfold summary.
  rewrite (all_values_false results "System Resources" PyNone
             (resources_entry e results R) eq_refl).
  reflexivity.
Qed.

(** C9: [check_system_resources] hands back [None] whenever it returns
    (only Ctrl+C makes it raise); the entry of "System Resources" in the
    table of results is therefore [None], [all(results.values())] is false,
    the all-passed line is never printed, and every run that reaches the
    summary prints the some-checks-failed line. *)
Theorem resources_check_blocks_all_passed :
  (forall e,
     result (check_system_resources e) = Return PyNone
     \/ result (check_system_resources e) = Raise KeyboardInterrupt)
  /\ (forall e results,
        result (run_checks e checks []) = Return results ->
        dict_get "System Resources" results = Some PyNone
        /\ truthy PyNone = false
        /\ all_values results = false)
  /\ (forall e, printed ALL_PASSED (trace (main e)) = false)
  /\ (forall e, result (main e) = Return tt ->
        printed SOME_FAILED (trace (main e)) = true).
Proof.
  split; [exact check_system_resources_result |].
  split; [| split; [exact main_quiet |]].
  - intros e results R.
    pose proof (resources_entry e results R) as G.
    split; [exact G |]. split; [reflexivity |].
    exact (all_values_false results _ _ G eq_refl).
  - intros e. unfold main. rewrite main_over_result.
    destruct (calm e checks) eqn:C; [| discriminate].
    destruct (raises_only_Exception (open_template e)) eqn:O; [| discriminate].
    intros _. rewrite (main_over_trace checks e C O).
    assert (R : result (run_checks e checks []) = Return (tabulate e checks []))
      by (rewrite run_checks_result, C; reflexivity).
    destruct (summary_trace (tabulate e checks [])) as [before [after [-> _]]].
    rewrite (all_values_false _ "System Resources" PyNone
               (resources_entry e _ R) eq_refl).
    apply printed_app_r, printed_cons_r.
    do 4 apply printed_app_r. apply printed_middle.
Qed.

Lemma resources_check_blocks_all_passed_witness :
  (dict_get "System Resources"
     [("OBS Installation", PyTrue); ("Hardware Encoding", PyTrue);
      ("Dev Server", PyTrue); ("OBS Configuration", PyTrue);
      ("System Resources", PyNone)] = Some PyNone
   /\ truthy PyNone = false
   /\ all_values
        [("OBS Installation", PyTrue); ("Hardware Encoding", PyTrue);
         ("Dev Server", PyTrue); ("OBS Configuration", PyTrue);
         ("System Resources", PyNone)] = false)
  /\ printed SOME_FAILED (trace (main ready_mac)) = true.
Proof.
  destruct resources_check_blocks_all_passed as [_ [Hentry [_ Hsome]]].
  split.
  - apply (Hentry ready_mac). reflexivity.
  - apply Hsome. reflexivity.
Defined.

(** C1 fails on the code: on a machine where the four boolean checks all
    return [True], the table of results still holds [None] for the resource
    inventory, the aggregate is false, and the summary prints the
    some-checks-failed line instead of the all-passed line. *)
Theorem aggregate_gated_by_resources :
  result (check_obs_installed ready_mac) = Return PyTrue
  /\ result (check_hardware_encoding ready_mac) = Return PyTrue
  /\ result (check_dev_server ready_mac) = Return PyTrue
  /\ result (check_obs_config ready_mac) = Return PyTrue
  /\ result (run_checks ready_mac checks [])
     = Return [("OBS Installation", PyTrue); ("Hardware Encoding", PyTrue);
               ("Dev Server", PyTrue); ("OBS Configuration", PyTrue);
               ("System Resources", PyNone)]
  /\ result (main ready_mac) = Return tt
  /\ printed ALL_PASSED (trace (main ready_mac)) = false
  /\ printed SOME_FAILED (trace (main ready_mac)) = true.
Proof. repeat split. Qed.

(** C10: [check_dev_server] returns [True] exactly when the connect
    succeeds and the GET answers with status 200; when the connect
    succeeds and the GET answers with another status, it returns [None]
    and prints nothing. *)
Theorem dev_server_check_verdict :
  (forall e,
     result (check_dev_server e) = Return PyTrue
     <-> connect_ex e = Return 0%Z
         /\ exists r, stream_page e = Return r /\ status r = 200%Z)
  /\ (forall e r,
        connect_ex e = Return 0%Z ->
        stream_page e = Return r ->
        status r <> 200%Z ->
        check_dev_server e = (Return PyNone, [Get DEV_STREAM_URL])).
Proof.
  split.
  - intros e. unfold check_dev_server, ask, urlopen.
    destruct (connect_ex e) as [z | [text | text |]];
      try (split; [discriminate | intros [[=] _]]).
    cbn [bind try_except].
    destruct (z =? 0)%Z eqn:Z0.
    + apply Z.eqb_eq in Z0. subst z.
      destruct (stream_page e) as [r | ex].
      * cbn [bind try_except].
        destruct (status r =? 200)%Z eqn:S.
        -- apply Z.eqb_eq in S. split; [eauto | reflexivity].
        -- apply Z.eqb_neq in S. split; [discriminate |].
           intros [_ [r' [[= <-] S']]]. contradiction.
      * split; [discriminate | intros [_ [r' [[=] _]]]].
    + apply Z.eqb_neq in Z0. split; [discriminate |].
      intros [[= ->] _]. contradiction.
  - intros e r C P S. unfold check_dev_server, ask, urlopen.
    rewrite C, P. apply Z.eqb_neq in S.
    cbn [bind try_except Z.eqb]. rewrite S. reflexivity.
Qed.

Lemma dev_server_check_verdict_witness :
  (result (check_dev_server ready_mac) = Return PyTrue
   <-> connect_ex ready_mac = Return 0%Z
       /\ exists r, stream_page ready_mac = Return r /\ status r = 200%Z)
  /\ check_dev_server created_mac = (Return PyNone, [Get DEV_STREAM_URL]).
Proof.
  split.
  - apply (proj1 dev_server_check_verdict ready_mac).
  - apply (proj2 dev_server_check_verdict created_mac created_response);
      [reflexivity | reflexivity | simpl; lia].
Defined.

End SetupClaims.

(** * The setup helper: faults of checks, and the settings file *)
Section FaultsAndTemplate.
Import SetupHelper Observations Samples.

(** C7: when a check raises an [Exception], the loop of [main] records
    [False] for it, prints the message of the exception, and goes on: every
    check of the table gets its entry, and [main] runs to its end through
    the summary.  (Stated for runs that Ctrl+C does not hit; [except
    Exception] does not catch it.) *)
Theorem check_fault_is_recorded :
  forall (e : env) (table : dict check),
    List.NoDup (dict_keys table) ->
    calm e table = true ->
    raises_only_Exception (open_template e) = true ->
    exists results,
      result (run_checks e table []) = Return results
      /\ dict_keys results = dict_keys table
      /\ (forall name (f : check) ex,
            In (name, f) table -> result (f e) = Raise ex ->
            dict_get name results = Some PyFalse
            /\ printed (fault_line name ex) (trace (main_over table e)) = true)
      /\ (forall name (f : check) v,
            In (name, f) table -> result (f e) = Return v ->
            dict_get name results = Some v)
      /\ result (main_over table e) = Return tt
      /\ printed SUMMARY_TITLE (trace (main_over table e)) = true.
Proof.
  intros e table D C O.
  exists (tabulate e table []).
  split; [rewrite run_checks_result, C; reflexivity |].
  split; [apply (tabulate_keys e table []); exact D |].
  split; [| split; [| split]].
  - intros name f ex Hin R. split.
    + rewrite (tabulate_get e table [] name f D Hin), R. reflexivity.
    + rewrite (main_over_trace table e C O).
      apply printed_app_r, printed_cons_r.
      rewrite printed_app, (run_checks_fault_printed e table [] name f ex C Hin R).
      reflexivity.
  - intros name f v Hin R.
    rewrite (tabulate_get e table [] name f D Hin), R. reflexivity.
  - rewrite main_over_result, C, O. reflexivity.
  - rewrite (main_over_trace table e C O).
    apply printed_app_r, printed_cons_r.
    do 4 apply printed_app_r. apply summary_title_printed.
Qed.

(** Listing the profiles directory is refused: "OBS Configuration" is
    recorded as failed, the other checks keep their results, and [main]
    ends normally. *)
Lemma check_fault_is_recorded_witness :
  exists results,
    result (run_checks locked_profiles checks []) = Return results
    /\ dict_keys results = dict_keys checks
    /\ dict_get "OBS Configuration" results = Some PyFalse
    /\ printed (fault_line "OBS Configuration" (Exception "[Errno 13] Permission denied"))
         (trace (main locked_profiles)) = true
    /\ dict_get "Dev Server" results = Some PyTrue
    /\ result (main locked_profiles) = Return tt.
Proof.
  destruct (check_fault_is_recorded locked_profiles checks
              checks_names_distinct eq_refl eq_refl)
    as [results [Hres [Hkeys [Hfault [Hkeep [Hend _]]]]]].
  exists results.
  destruct (Hfault "OBS Configuration" check_obs_config
              (Exception "[Errno 13] Permission denied"))
    as [Hrec Hmsg]; [simpl; tauto | reflexivity |].
  repeat split; try assumption.
  apply (Hkeep "Dev Server" check_dev_server PyTrue); [simpl; tauto | reflexivity].
Defined.

Lemma apply_trace_app fs tr tr' :
  apply_trace fs (tr ++ tr') = apply_trace (apply_trace fs tr) tr'.
Proof. apply fold_left_app. Qed.

Lemma apply_trace_no_write tr :
  forallb (fun ev => negb (is_write ev)) tr = true ->
  forall fs, apply_trace fs tr = fs.
Proof.
  induction tr as [| ev tr IH]; intros H fs; [reflexivity |].
  simpl in H. apply andb_true_iff in H as [Hev H].
  simpl. destruct ev; try discriminate Hev; apply IH; exact H.
Qed.

Lemma summary_no_write results :
  forallb (fun ev => negb (is_write ev)) (trace (summary results)) = true.
Proof. unfold summary. destruct (all_values results); reflexivity. Qed.

Lemma generate_step_trace e :
  trace (generate_step e)
  = Print (nl +:+ rule) :: Print "Generating OBS settings template..."
    :: match open_template e, dump_template e with
       | Return _, Dumped =>
           [WriteFile (template_path e) (Json.dumps settings);
            Print (success_line ("Settings template saved to: " +:+ template_path e));
            Print (info_line ("Reference template: " +:+ template_path e))]
       | Return _, DumpFailed stored text =>
           [WriteFile (template_path e) stored;
            Print (warning_line ("Could not generate template: " +:+ text))]
       | Raise ex, _ =>
           if is_Exception ex
           then [Print (warning_line ("Could not generate template: " +:+ str_exn ex))]
           else []
       end.
Proof.
  unfold generate_step, generate_obs_settings_template, ask.
  destruct (open_template e) as [[] | [text | text |]]; try reflexivity.
  destruct (dump_template e); reflexivity.
Qed.

(** The file system after [main]: what the checks left, then the template
    step; nothing later writes. *)
Lemma main_over_fs e table (fs : gmap string string) :
  calm e table = true ->
  raises_only_Exception (open_template e) = true ->
  apply_trace fs (trace (main_over table e))
  = apply_trace (apply_trace fs (trace (run_checks e table [])))
      (trace (generate_step e)).
Proof.
  intros C O. rewrite (main_over_trace table e C O).
  rewrite apply_trace_app.
  rewrite (apply_trace_no_write (trace (print_header _))) by reflexivity.
  change (apply_trace fs (Print ?x :: ?tr)) with (apply_trace fs tr).
  rewrite apply_trace_app, apply_trace_app.
  rewrite (apply_trace_no_write (_ ++ _ ++ _)); [reflexivity |].
  rewrite !forallb_app, summary_no_write. reflexivity.
Qed.

Lemma main_over_warns e table text :
  calm e table = true ->
  raises_only_Exception (open_template e) = true ->
  printed (warning_line ("Could not generate template: " +:+ text))
    (trace (generate_step e)) = true ->
  printed (warning_line ("Could not generate template: " +:+ text))
    (trace (main_over table e)) = true.
Proof.
  intros C O H. rewrite (main_over_trace table e C O).
  apply printed_app_r, printed_cons_r, printed_app_r.
  rewrite printed_app, H. reflexivity.
Qed.

Lemma settings_round_trip : Json.loads (Json.dumps settings) = Some settings.
Proof. vm_compute. reflexivity. Qed.

(** C6, as amended: on every run that Ctrl+C does not hit, whatever the
    checks found and whatever the file system held before:
    - when the template file can be opened and written, it then holds
      exactly the JSON text of the settings; parsing that text gives back
      the settings, whose top-level keys are the four sections video,
      output, audio and browser_source, each with its fields;
    - when the file cannot be opened, one warning with the exception text
      is printed, the template step writes nothing, and [main] ends
      normally;
    - when the write fails after the file was opened, the file holds what
      the failed write stored, one warning with the exception text is
      printed, and [main] ends normally. *)
Theorem settings_template_written :
  forall (e : env) (table : dict check) (fs : gmap string string),
    calm e table = true ->
    (open_template e = Return tt -> dump_template e = Dumped ->
     exists text doc,
       apply_trace fs (trace (main_over table e)) !! template_path e = Some text
       /\ text = Json.dumps settings
       /\ Json.loads text = Some doc
       /\ doc = settings
       /\ json_keys doc = ["video"; "output"; "audio"; "browser_source"]
       /\ option_map json_keys (json_member "video" doc)
          = Some ["base_resolution"; "output_resolution"; "fps"]
       /\ option_map json_keys (json_member "output" doc)
          = Some ["mode"; "video_bitrate"; "audio_bitrate"; "encoder"]
       /\ option_map json_keys (json_member "audio" doc)
          = Some ["sample_rate"; "channels"]
       /\ option_map json_keys (json_member "browser_source" doc)
          = Some ["url"; "width"; "height"; "fps";
                  "shutdown_when_not_visible"; "refresh_when_scene_active"])
    /\ (forall ex,
          open_template e = Raise ex -> is_Exception ex = true ->
          apply_trace fs (trace (main_over table e))
          = apply_trace fs (trace (run_checks e table []))
          /\ writes (trace (generate_step e)) = []
          /\ printed (warning_line ("Could not generate template: " +:+ str_exn ex))
               (trace (main_over table e)) = true
          /\ result (main_over table e) = Return tt)
    /\ (forall stored text,
          open_template e = Return tt -> dump_template e = DumpFailed stored text ->
          apply_trace fs (trace (main_over table e)) !! template_path e = Some stored
          /\ printed (warning_line ("Could not generate template: " +:+ text))
               (trace (main_over table e)) = true
          /\ result (main_over table e) = Return tt).
Proof.
  intros e table fs C. split; [| split].
  - intros O D. exists (Json.dumps settings), settings.
    split.
    { rewrite (main_over_fs e table fs C) by (rewrite O; reflexivity).
      rewrite generate_step_trace, O, D. cbn. apply lookup_insert_eq. }
    split; [reflexivity |].
    split; [apply settings_round_trip |].
    repeat split.
  - intros ex O X.
    assert (O' : raises_only_Exception (open_template e) = true)
      by (rewrite O; exact X).
    split; [| split; [| split]].
    + rewrite (main_over_fs e table fs C O'), generate_step_trace, O, X. reflexivity.
    + rewrite generate_step_trace, O, X. reflexivity.
    + apply (main_over_warns e table _ C O').
      rewrite generate_step_trace, O, X. apply (printed_middle _ [_; _] []).
    + rewrite main_over_result, C, O'. reflexivity.
  - intros stored text O D.
    assert (O' : raises_only_Exception (open_template e) = true)
      by (rewrite O; reflexivity).
    split; [| split].
    + rewrite (main_over_fs e table fs C O'), generate_step_trace, O, D.
      cbn. apply lookup_insert_eq.
    + apply (main_over_warns e table _ C O').
      rewrite generate_step_trace, O, D. apply (printed_middle _ [_; _; _] []).
    + rewrite main_over_result, C, O'. reflexivity.
Qed.

Lemma settings_template_written_witness :
  (exists text doc,
     apply_trace {[ template_path ready_mac := "{}" ]} (trace (main ready_mac))
       !! template_path ready_mac = Some text
     /\ Json.loads text = Some doc
     /\ json_keys doc = ["video"; "output"; "audio"; "browser_source"])
  /\ (apply_trace {[ template_path read_only_mac := "{}" ]} (trace (main read_only_mac))
      = apply_trace {[ template_path read_only_mac := "{}" ]}
          (trace (run_checks read_only_mac checks []))
      /\ result (main read_only_mac) = Return tt)
  /\ (apply_trace {[ template_path full_disk_mac := "{}" ]} (trace (main full_disk_mac))
        !! template_path full_disk_mac = Some ""
      /\ result (main full_disk_mac) = Return tt).
Proof.
  split; [| split].
  - destruct (settings_template_written ready_mac checks
                {[ template_path ready_mac := "{}" ]} eq_refl)
      as [H _].
    destruct (H eq_refl eq_refl) as [text [doc [Hfile [_ [Hload [_ [Hkeys _]]]]]]].
    exists text, doc. repeat split; assumption.
  - destruct (settings_template_written read_only_mac checks
                {[ template_path read_only_mac := "{}" ]} eq_refl)
      as [_ [H _]].
    destruct (H (Exception "[Errno 30] Read-only file system") eq_refl eq_refl)
      as [Hfs [_ [_ Hend]]].
    split; assumption.
  - destruct (settings_template_written full_disk_mac checks
                {[ template_path full_disk_mac := "{}" ]} eq_refl)
      as [_ [_ H]].
    destruct (H "" "[Errno 28] No space left on device" eq_refl eq_refl)
      as [Hfs [_ Hend]].
    split; assumption.
Defined.

(** C6, as stated, fails on three counts: the document written by a run has
    four top-level keys, not five; a run that cannot open the file ends
    normally without having written it; and a run whose write fails after
    the file was opened leaves the file emptied, so that parsing it yields
    nothing. *)
Lemma settings_document_has_four_keys :
  (exists text doc,
     apply_trace ∅ (trace (main ready_mac)) !! template_path ready_mac = Some text
     /\ Json.loads text = Some doc
     /\ length (json_keys doc) = 4%nat
     /\ length (json_keys doc) <> 5%nat)
  /\ (result (main read_only_mac) = Return tt
      /\ apply_trace ∅ (trace (main read_only_mac)) !! template_path read_only_mac
         = None)
  /\ (result (main full_disk_mac) = Return tt
      /\ apply_trace {[ template_path full_disk_mac := Json.dumps settings ]}
           (trace (main full_disk_mac)) !! template_path full_disk_mac
         = Some ""
      /\ Json.loads "" = None).
Proof.
  split; [| split].
  - exists (Json.dumps settings), settings.
    split.
    { rewrite (main_over_fs ready_mac checks ∅) by reflexivity.
      rewrite generate_step_trace. cbn. apply lookup_insert_eq. }
    split; [apply settings_round_trip |].
    split; [reflexivity | discriminate].
  - split; [reflexivity |].
    rewrite apply_trace_no_write by reflexivity. apply lookup_empty.
  - split; [reflexivity |]. split; [| reflexivity].
    rewrite (main_over_fs full_disk_mac checks) by reflexivity.
    rewrite generate_step_trace. cbn. apply lookup_insert_eq.
Qed.

End FaultsAndTemplate.

(** * Further properties of the checks *)
Section CheckVerdicts.
Import SetupHelper Observations Samples.

Lemma find_obs_spec e paths :
  find_obs e paths
  = match List.find (path_exists e) paths with
    | Some path =>
        (Return PyTrue, [Print (success_line ("OBS Studio found at: " +:+ path))])
    | None =>
        (Return PyFalse,
         [Print (error_line "OBS Studio not found");
          Print (info_line "Install with: brew install --cask obs")])
    end.
Proof.
  induction paths as [| path paths IH]; [reflexivity |].
  simpl. destruct (path_exists e path); [reflexivity | exact IH].
Qed.

(** X1: [check_obs_installed] never raises; it returns [True] exactly when
    one of the known install paths exists, and then prints one line that
    names the first such path in the order of the list; otherwise it
    returns [False] after the error line and the install hint. *)
Theorem obs_installed_first_match :
  forall e,
    check_obs_installed e
    = match List.find (path_exists e) obs_paths with
      | Some path =>
          (Return PyTrue, [Print (success_line ("OBS Studio found at: " +:+ path))])
      | None =>
          (Return PyFalse,
           [Print (error_line "OBS Studio not found");
            Print (info_line "Install with: brew install --cask obs")])
      end
    /\ (result (check_obs_installed e) = Return PyTrue
        <-> exists path, In path obs_paths /\ path_exists e path = true)
    /\ (result (check_obs_installed e) = Return PyFalse
        <-> forall path, In path obs_paths -> path_exists e path = false).
Proof.
  intros e. unfold check_obs_installed. rewrite find_obs_spec.
  split; [reflexivity |].
  destruct (List.find (path_exists e) obs_paths) as [path |] eqn:F; simpl.
  - apply find_some in F. split; split.
    + intros _. exists path. exact F.
    + reflexivity.
    + discriminate.
    + intros H. destruct F as [Hin Hp]. rewrite (H path Hin) in Hp. discriminate.
  - split; split.
    + discriminate.
    + intros [path [Hin Hp]].
      rewrite (find_none _ _ F path Hin) in Hp. discriminate.
    + intros _ path Hin. exact (find_none _ _ F path Hin).
    + reflexivity.
Qed.

(** X2: the verdict of [check_hardware_encoding] is decided by the captured
    output alone: [True] exactly when it contains "Metal", whatever the
    return code of the command; an [Exception] of the call gives [False]
    with one warning that carries its text. *)
Theorem hardware_encoding_verdict :
  (forall e c,
     system_profiler e = Return c ->
     result (check_hardware_encoding e)
     = Return (if str_in "Metal" (stdout c) then PyTrue else PyFalse))
  /\ (forall e e' c c',
        system_profiler e = Return c -> system_profiler e' = Return c' ->
        stdout c = stdout c' ->
        check_hardware_encoding e = check_hardware_encoding e')
  /\ (forall e ex,
        system_profiler e = Raise ex -> is_Exception ex = true ->
        check_hardware_encoding e
        = (Return PyFalse,
           [Print (warning_line ("Could not check hardware encoding: " +:+ str_exn ex))])).
Proof.
  split; [| split].
  - intros e c H. unfold check_hardware_encoding, ask. rewrite H.
    cbn [bind try_except]. destruct (str_in "Metal" (stdout c)); reflexivity.
  - intros e e' c c' H H' S. unfold check_hardware_encoding, ask.
    rewrite H, H'. cbn [bind try_except]. rewrite S. reflexivity.
  - intros e ex H X. unfold check_hardware_encoding, ask. rewrite H.
    destruct ex; [reflexivity | reflexivity | discriminate X].
Qed.

Lemma hardware_encoding_verdict_witness :
  result (check_hardware_encoding ready_mac) = Return PyTrue
  /\ check_hardware_encoding
       (with_system_profiler (Return (run 1 "Metal Support: Metal 3")) ready_mac)
     = check_hardware_encoding
         (with_system_profiler (Return (run 0 "Metal Support: Metal 3")) ready_mac)
  /\ check_hardware_encoding
       (with_system_profiler (Raise (Exception "timed out after 10 seconds")) ready_mac)
     = (Return PyFalse,
        [Print (warning_line ("Could not check hardware encoding: "
                              +:+ "timed out after 10 seconds"))]).
Proof.
  destruct hardware_encoding_verdict as [Hv [Hcode Hexn]].
  split; [| split].
  - apply (Hv ready_mac (run 0 "Chipset Model: Apple M1; Metal Support: Metal 3")).
    reflexivity.
  - apply (Hcode _ _ (run 1 "Metal Support: Metal 3") (run 0 "Metal Support: Metal 3"));
      reflexivity.
  - apply (Hexn _ (Exception "timed out after 10 seconds")); reflexivity.
Defined.

(** X3: when the port does not accept the connection, [check_dev_server]
    returns [False] after its two lines and never fetches the page. *)
Theorem dev_server_port_closed :
  forall e code,
    connect_ex e = Return code -> code <> 0%Z ->
    check_dev_server e
    = (Return PyFalse,
       [Print (error_line "Dev server is not running on port 5173");
        Print (info_line "Start with: cd /Volumes/VIXinSSD/SolarChime && npm run dev")]).
Proof.
  intros e code C N. unfold check_dev_server, ask. rewrite C.
  cbn [bind try_except]. apply Z.eqb_neq in N. rewrite N. reflexivity.
Qed.

Lemma dev_server_port_closed_witness :
  check_dev_server (with_connect_ex (Return 61%Z) ready_mac)
  = (Return PyFalse,
     [Print (error_line "Dev server is not running on port 5173");
      Print (info_line "Start with: cd /Volumes/VIXinSSD/SolarChime && npm run dev")]).
Proof.
  apply (dev_server_port_closed _ 61%Z); [reflexivity | lia].
Defined.

(** X4: once the port is open, whatever the fetch of the page raises is
    swallowed by the bare [except]: the check returns [False] with one
    warning, even for [KeyboardInterrupt]; an interrupt during the connect
    is not caught. *)
Theorem dev_server_swallows_fetch_errors :
  (forall e ex,
     connect_ex e = Return 0%Z -> stream_page e = Raise ex ->
     check_dev_server e
     = (Return PyFalse,
        [Get DEV_STREAM_URL;
         Print (warning_line "Dev server is running but /stream page may not be accessible")]))
  /\ (forall e,
        connect_ex e = Raise KeyboardInterrupt ->
        check_dev_server e = (Raise KeyboardInterrupt, [])).
Proof.
  split.
  - intros e ex C P. unfold check_dev_server, ask, urlopen. rewrite C, P. reflexivity.
  - intros e C. unfold check_dev_server, ask. rewrite C. reflexivity.
Qed.

Lemma dev_server_swallows_fetch_errors_witness :
  result (check_dev_server (with_stream_page (Raise KeyboardInterrupt) ready_mac))
  = Return PyFalse
  /\ result (check_dev_server (with_connect_ex (Raise KeyboardInterrupt) ready_mac))
     = Raise KeyboardInterrupt.
Proof.
  destruct dev_server_swallows_fetch_errors as [Hfetch Hconnect].
  split.
  - rewrite (Hfetch _ KeyboardInterrupt); reflexivity.
  - rewrite Hconnect; reflexivity.
Defined.

End CheckVerdicts.

Section CheckVerdictsMore.
Import SetupHelper Observations Samples.

Lemma obs_installed_first_match_witness :
  (result (check_obs_installed ready_mac) = Return PyTrue
   <-> exists path, In path obs_paths /\ path_exists ready_mac path = true)
  /\ check_obs_installed
       (with_path_exists (String.eqb "/usr/local/bin/obs") ready_mac)
     = (Return PyTrue, [Print (success_line "OBS Studio found at: /usr/local/bin/obs")])
  /\ result (check_obs_installed (with_path_exists (fun _ => false) ready_mac))
     = Return PyFalse.
Proof.
  split; [| split].
  - apply (obs_installed_first_match ready_mac).
  - rewrite (proj1 (obs_installed_first_match _)). reflexivity.
  - apply (obs_installed_first_match (with_path_exists (fun _ => false) ready_mac)).
    reflexivity.
Defined.

(** X5: [check_obs_config] returns [False] exactly when [exists()] reports
    the configuration directory missing.  When the directory exists the
    check returns [True] whatever the number of profiles, which only
    selects the line printed.  An [OSError] of either [exists()] test or of
    the directory listing is not caught: it leaves the check before
    anything is printed (first test) or after the success line. *)
Theorem obs_config_verdict :
  forall e,
    (Path_exists e (OBS_CONFIG_BASE e) = Return false ->
     check_obs_config e
     = (Return PyFalse,
        [Print (warning_line "OBS configuration directory not found");
         Print (info_line "OBS may not have been launched yet")]))
    /\ (forall ex,
          Path_exists e (OBS_CONFIG_BASE e) = Raise ex ->
          check_obs_config e = (Raise ex, []))
    /\ (Path_exists e (OBS_CONFIG_BASE e) = Return true ->
        Path_exists e (OBS_BASIC_PROFILES e) = Return false ->
        check_obs_config e
        = (Return PyTrue, [Print (success_line "OBS configuration directory found")]))
    /\ (forall profiles,
          Path_exists e (OBS_CONFIG_BASE e) = Return true ->
          Path_exists e (OBS_BASIC_PROFILES e) = Return true ->
          iterdir_profiles e = Return profiles ->
          check_obs_config e
          = (Return PyTrue,
             [Print (success_line "OBS configuration directory found");
              Print (match profiles with
                     | [] => warning_line "No OBS profiles found - create one in OBS"
                     | _ => info_line ("Found " +:+ py_str (Z.of_nat (length profiles))
                                       +:+ " OBS profile(s)")
                     end)]))
    /\ (forall ex,
          Path_exists e (OBS_CONFIG_BASE e) = Return true ->
          (Path_exists e (OBS_BASIC_PROFILES e) = Raise ex
           \/ (Path_exists e (OBS_BASIC_PROFILES e) = Return true
               /\ iterdir_profiles e = Raise ex)) ->
          check_obs_config e
          = (Raise ex, [Print (success_line "OBS configuration directory found")]))
    /\ (result (check_obs_config e) = Return PyFalse
        <-> Path_exists e (OBS_CONFIG_BASE e) = Return false).
Proof.
  intros e. unfold check_obs_config, ask.
  destruct (Path_exists e (OBS_CONFIG_BASE e)) as [[|] | exb] eqn:B.
  - destruct (Path_exists e (OBS_BASIC_PROFILES e)) as [[|] | exp] eqn:P.
    + destruct (iterdir_profiles e) as [[| p ps] | ex] eqn:I.
      * repeat split; try discriminate; try reflexivity.
        -- intros profiles _ _ [= <-]. reflexivity.
        -- intros ex _ [[=] | [_ [=]]].
      * repeat split; try discriminate; try reflexivity.
        -- intros profiles _ _ [= <-]. reflexivity.
        -- intros ex _ [[=] | [_ [=]]].
      * repeat split; try discriminate; try reflexivity.
        intros ex' _ [[=] | [_ [= <-]]]. reflexivity.
    + repeat split; try discriminate; try reflexivity.
      intros ex _ [[=] | [[=] _]].
    + repeat split; try discriminate; try reflexivity.
      intros ex _ [[= <-] | [[=] _]]. reflexivity.
  - repeat split; try discriminate; reflexivity.
  - repeat split; try discriminate; try reflexivity.
    intros ex [= <-]. reflexivity.
Qed.

Lemma obs_config_verdict_witness :
  check_obs_config (with_Path_exists (fun _ => Return false) ready_mac)
  = (Return PyFalse,
     [Print (warning_line "OBS configuration directory not found");
      Print (info_line "OBS may not have been launched yet")])
  /\ check_obs_config locked_home
     = (Raise (Exception "[Errno 13] Permission denied"), [])
  /\ result (check_obs_config (with_iterdir_profiles (Return []) ready_mac))
     = Return PyTrue
  /\ check_obs_config locked_profiles
     = (Raise (Exception "[Errno 13] Permission denied"),
        [Print (success_line "OBS configuration directory found")]).
Proof.
  split; [| split; [| split]].
  - apply (obs_config_verdict (with_Path_exists (fun _ => Return false) ready_mac)).
    reflexivity.
  - destruct (obs_config_verdict locked_home) as [_ [H _]].
    apply (H (Exception "[Errno 13] Permission denied")). reflexivity.
  - destruct (obs_config_verdict (with_iterdir_profiles (Return []) ready_mac))
      as [_ [_ [_ [H _]]]].
    rewrite (H []); reflexivity.
  - destruct (obs_config_verdict locked_profiles) as [_ [_ [_ [_ [H _]]]]].
    apply (H (Exception "[Errno 13] Permission denied")); [reflexivity |].
    right. split; reflexivity.
Defined.

Lemma check_hardware_encoding_result e :
  (exists v, result (check_hardware_encoding e) = Return v)
  \/ result (check_hardware_encoding e) = Raise KeyboardInterrupt.
Proof.
  unfold check_hardware_encoding, ask.
  destruct (system_profiler e) as [c | [text | text |]]; eauto.
  cbn [bind try_except]. destruct (str_in "Metal" (stdout c)); eauto.
Qed.

Lemma check_dev_server_result e :
  (exists v, result (check_dev_server e) = Return v)
  \/ result (check_dev_server e) = Raise KeyboardInterrupt.
Proof.
  unfold check_dev_server, ask, urlopen.
  destruct (connect_ex e) as [z | [text | text |]]; eauto.
  cbn [bind try_except].
  destruct (z =? 0)%Z; eauto.
  destruct (stream_page e) as [r | ex]; eauto.
  cbn [bind try_except]. destruct (status r =? 200)%Z; eauto.
Qed.

(** X6: among the faults of the system calls the checks make (the
    file-system queries, the subprocesses, the socket, the HTTP GET, the
    conversion of the memory size), only those of [check_obs_config] reach
    the fault handler of [main]: an [Exception] that leaves a check comes
    from "OBS Configuration", raised by one of its two [exists()] tests or
    by the listing of the profiles directory.  The other checks return, or
    are interrupted by Ctrl+C. *)
Theorem only_obs_config_faults :
  forall e name (f : check) ex,
    In (name, f) checks ->
    result (f e) = Raise ex ->
    is_Exception ex = true ->
    name = "OBS Configuration"
    /\ (Path_exists e (OBS_CONFIG_BASE e) = Raise ex
        \/ (Path_exists e (OBS_CONFIG_BASE e) = Return true
            /\ Path_exists e (OBS_BASIC_PROFILES e) = Raise ex)
        \/ (Path_exists e (OBS_CONFIG_BASE e) = Return true
            /\ Path_exists e (OBS_BASIC_PROFILES e) = Return true
            /\ iterdir_profiles e = Raise ex)).
Proof.
  intros e name f ex Hin R X.
  unfold checks in Hin; simpl in Hin.
  destruct Hin as [[= <- <-] | [[= <- <-] | [[= <- <-] | [[= <- <-] | [[= <- <-] | []]]]]].
  - unfold check_obs_installed in R. rewrite find_obs_spec in R.
    destruct (List.find _ _); discriminate R.
  - destruct (check_hardware_encoding_result e) as [[v H] | H];
      rewrite H in R; [discriminate R |].
    injection R as <-. discriminate X.
  - destruct (check_dev_server_result e) as [[v H] | H];
      rewrite H in R; [discriminate R |].
    injection R as <-. discriminate X.
  - split; [reflexivity |].
    unfold check_obs_config, ask in R.
    destruct (Path_exists e (OBS_CONFIG_BASE e)) as [[|] | exb];
      [| discriminate R | injection R as <-; now left].
    destruct (Path_exists e (OBS_BASIC_PROFILES e)) as [[|] | exp];
      [| discriminate R | injection R as <-; right; left; now split].
    destruct (iterdir_profiles e) as [[| p ps] | ex'];
      [discriminate R | discriminate R |].
    injection R as <-. right; right. repeat split.
  - destruct (check_system_resources_result e) as [H | H];
      rewrite H in R; [discriminate R |].
    injection R as <-. discriminate X.
Qed.

Lemma only_obs_config_faults_witness :
  "OBS Configuration" = "OBS Configuration"
  /\ (Path_exists locked_home (OBS_CONFIG_BASE locked_home)
      = Raise (Exception "[Errno 13] Permission denied")
      \/ (Path_exists locked_home (OBS_CONFIG_BASE locked_home) = Return true
          /\ Path_exists locked_home (OBS_BASIC_PROFILES locked_home)
             = Raise (Exception "[Errno 13] Permission denied"))
      \/ (Path_exists locked_home (OBS_CONFIG_BASE locked_home) = Return true
          /\ Path_exists locked_home (OBS_BASIC_PROFILES locked_home) = Return true
          /\ iterdir_profiles locked_home
             = Raise (Exception "[Errno 13] Permission denied"))).
Proof.
  apply (only_obs_config_faults locked_home "OBS Configuration" check_obs_config
           (Exception "[Errno 13] Permission denied"));
    [simpl; tauto | reflexivity | reflexivity].
Defined.

End CheckVerdictsMore.

Section ResourcesAndFiles.
Import SetupHelper Observations Samples.

(** X7: in [check_system_resources] an [Exception] of the memory query (of
    the [sysctl] call or of [int] on its output) skips the caffeinate probe:
    the check prints the CPU line and one warning with the exception text.
    Off macOS the memory query is not made, and a [sysctl] that ends with a
    non-zero code only drops the RAM line. *)
Theorem resources_fault_skips_caffeinate :
  (forall e ex,
     platform_system e = "Darwin" -> is_Exception ex = true ->
     (sysctl_memsize e = Raise ex
      \/ exists c, sysctl_memsize e = Return c /\ returncode c = 0%Z
                   /\ int_of_stripped e (stdout c) = Raise ex) ->
     check_system_resources e
     = (Return PyNone,
        [cpu_line e;
         Print (warning_line ("Could not check system resources: " +:+ str_exn ex))]))
  /\ (forall e w,
        String.eqb (platform_system e) "Darwin" = false ->
        which_caffeinate e = Return w ->
        check_system_resources e = (Return PyNone, [cpu_line e; caffeinate_line w]))
  /\ (forall e c w,
        platform_system e = "Darwin" ->
        sysctl_memsize e = Return c -> returncode c <> 0%Z ->
        which_caffeinate e = Return w ->
        check_system_resources e = (Return PyNone, [cpu_line e; caffeinate_line w])).
Proof.
  split; [| split].
  - intros e ex D X H. unfold check_system_resources, ask. rewrite D.
    change (String.eqb "Darwin" "Darwin") with true. cbv iota.
    destruct H as [S | [c [S [C I]]]]; rewrite S.
    + destruct ex; [reflexivity | reflexivity | discriminate X].
    + cbn [bind try_except]. rewrite C. change (0 =? 0)%Z with true. cbv iota.
      rewrite I. destruct ex; [reflexivity | reflexivity | discriminate X].
  - intros e w D W. unfold check_system_resources, ask. rewrite D, W.
    cbn [bind try_except]. unfold caffeinate_line.
    destruct (returncode w =? 0)%Z; reflexivity.
  - intros e c w D S C W. unfold check_system_resources, ask. rewrite D, S, W.
    change (String.eqb "Darwin" "Darwin") with true. cbv iota.
    cbn [bind try_except]. apply Z.eqb_neq in C. rewrite C.
    unfold caffeinate_line. destruct (returncode w =? 0)%Z; reflexivity.
Qed.

Lemma resources_fault_skips_caffeinate_witness :
  check_system_resources
    (with_int_of_stripped (fun _ => Raise (Exception "invalid literal for int()")) ready_mac)
  = (Return PyNone,
     [cpu_line ready_mac;
      Print (warning_line ("Could not check system resources: "
                           +:+ "invalid literal for int()"))])
  /\ check_system_resources (with_platform_system "Linux" ready_mac)
     = (Return PyNone, [cpu_line ready_mac; caffeinate_line (run 0 "/usr/bin/caffeinate")])
  /\ check_system_resources (with_sysctl_memsize (Return (run 1 "")) ready_mac)
     = (Return PyNone, [cpu_line ready_mac; caffeinate_line (run 0 "/usr/bin/caffeinate")]).
Proof.
  destruct resources_fault_skips_caffeinate as [Hfault [Hother Hcode]].
  split; [| split].
  - rewrite (Hfault _ (Exception "invalid literal for int()"));
      [reflexivity | reflexivity | reflexivity |].
    right. exists (run 0 ("17179869184" +:+ nl)). repeat split.
  - rewrite (Hother _ (run 0 "/usr/bin/caffeinate")); reflexivity.
  - rewrite (Hcode _ (run 1 "") (run 0 "/usr/bin/caffeinate"));
      [reflexivity | reflexivity | reflexivity | simpl; lia | reflexivity].
Defined.















End ResourcesAndFiles.

Section AggregateAndOrder.
Import SetupHelper Observations Samples.

Lemma dict_set_fresh {V} k (v : V) (d : dict V) :
  ~ In k (dict_keys d) -> dict_set k v d = d ++ [(k, v)].
Proof.
  induction d as [| [k' v'] d IH]; simpl; intros N; [reflexivity |].
  destruct (String.eqb k k') eqn:E.
  - apply String.eqb_eq in E. subst. tauto.
  - rewrite IH; [reflexivity | tauto].
Qed.

Lemma tabulate_app e table :
  forall results,
    List.NoDup (dict_keys results ++ dict_keys table) ->
    tabulate e table results
    = results ++ map (fun entry => (fst entry, recorded (result (snd entry e)))) table.
Proof.
  induction table as [| [k f] table IH]; intros results D.
  - simpl. now rewrite app_nil_r.
  - rewrite tabulate_cons.
    assert (Hk : ~ In k (dict_keys results)).
    { intros Hin. apply List.NoDup_remove_2 in D. apply D.
      apply in_or_app. now left. }
    rewrite (dict_set_fresh k _ results Hk).
    rewrite IH.
    + rewrite <- app_assoc. reflexivity.
    + unfold dict_keys in *. rewrite map_app, <- app_assoc. exact D.
Qed.

Lemma truthy_recorded x : truthy (recorded x) = passed x.
Proof. destruct x as [[] |]; reflexivity. Qed.

(** X9: the aggregate of [main] is the conjunction over every entry of the
    table of checks: it holds exactly when each check returned [True] (a
    check that returned [False] or [None], or raised, makes it fail), and
    the summary prints the all-passed line when it holds and the
    some-checks-failed line when it does not. *)
Theorem aggregate_is_conjunction :
  forall e (table : dict check) results,
    List.NoDup (dict_keys table) ->
    result (run_checks e table []) = Return results ->
    all_values results = forallb (fun entry => passed (result (snd entry e))) table
    /\ printed ALL_PASSED (trace (summary results)) = all_values results
    /\ printed SOME_FAILED (trace (summary results)) = negb (all_values results).
Proof.
  intros e table results D R.
  rewrite run_checks_result in R.
  destruct (calm e table); [| discriminate R].
  injection R as <-.
  split.
  - rewrite (tabulate_app e table [] D). unfold all_values, dict_values.
    rewrite app_nil_l, map_map. cbn [snd].
    induction table as [| entry table IH]; [reflexivity |].
    simpl. rewrite truthy_recorded. f_equal. apply IH.
    simpl in D. now apply List.NoDup_cons_iff in D.
  - unfold summary. destruct (all_values (tabulate e table [])); split; reflexivity.
Qed.

(** Without the resources check in the table, a ready machine passes. *)
Lemma aggregate_is_conjunction_witness :
  all_values [("OBS Installation", PyTrue); ("Hardware Encoding", PyTrue);
              ("Dev Server", PyTrue); ("OBS Configuration", PyTrue)] = true
  /\ printed ALL_PASSED
       (trace (summary [("OBS Installation", PyTrue); ("Hardware Encoding", PyTrue);
                        ("Dev Server", PyTrue); ("OBS Configuration", PyTrue)]))
     = true.
Proof.
  assert (D : List.NoDup (dict_keys (removelast checks))).
  { unfold checks, dict_keys; simpl.
    repeat (apply List.NoDup_cons; [simpl; intuition discriminate |]).
    apply List.NoDup_nil. }
  destruct (aggregate_is_conjunction ready_mac (removelast checks) _ D eq_refl)
    as [Hall [Hpass _]].
  split; [exact Hall | exact Hpass].
Defined.



End AggregateAndOrder.


(** * Further properties of the poller: the gate *)
Section GateArithmetic.
Import HealthPoller Observations Samples.

(** X12: for a positive modulus the remainder taken at the gate lies in
    [0, m) and differs from the clock reading by a whole multiple of
    [m]. *)
Theorem float_mod_range :
  forall (x : Q) (m : Z),
    (0 < m)%Z ->
    (0 <= float_mod x m)%Q /\ (float_mod x m < inject_Z m)%Q
    /\ exists k : Z, (x == float_mod x m + inject_Z m * inject_Z k)%Q.
Proof.
  intros x m Hm. destruct (float_mod_decompose x m Hm) as [D [L U]].
  split; [exact L |]. split; [exact U |]. eexists. exact D.
Qed.

Lemma float_mod_range_witness :
  (0 <= float_mod (1700000075 # 1) 60)%Q
  /\ (float_mod (1700000075 # 1) 60 < inject_Z 60)%Q
  /\ exists k : Z,
       (1700000075 # 1 == float_mod (1700000075 # 1) 60 + inject_Z 60 * inject_Z k)%Q.
Proof. apply float_mod_range. lia. Defined.

(** X13: the gate has period 60 seconds and flips after 30: read at clock
    values exactly one interval apart, it is open at every second
    reading. *)
Theorem gate_alternates :
  forall x : Q,
    api_gate (x + 60) = api_gate x
    /\ api_gate (x + 30) = negb (api_gate x).
Proof.
  intros x.
  assert (H60 : (0 < 60)%Z) by lia.
  destruct (float_mod_decompose x 60 H60) as [D [L U]].
  set (r := float_mod x 60) in *. set (k := Qfloor (x / inject_Z 60)) in *.
  change (inject_Z 60) with 60%Q in *.
  rewrite (api_gate_of_remainder x r) by reflexivity.
  split.
  - apply api_gate_of_remainder.
    apply (float_mod_unique _ r 60 (k + 1)); try assumption.
    rewrite inject_Z_plus. change (inject_Z 1) with 1%Q.
    change (inject_Z 60) with 60%Q. lra.
  - destruct (Qlt_le_dec r 30) as [Lt | Ge].
    + rewrite (Qlt_bool_true r 30 Lt). cbn [negb].
      rewrite (api_gate_of_remainder (x + 30) (r + 30)).
      * apply Qlt_bool_false. lra.
      * apply (float_mod_unique _ (r + 30) 60 k);
          [lia | lra | change (inject_Z 60) with 60%Q; lra |].
        change (inject_Z 60) with 60%Q. lra.
    + rewrite (Qlt_bool_false r 30 Ge). cbn [negb].
      rewrite (api_gate_of_remainder (x + 30) (r - 30)).
      * apply Qlt_bool_true. lra.
      * apply (float_mod_unique _ (r - 30) 60 (k + 1));
          [lia | lra | change (inject_Z 60) with 60%Q; lra |].
        rewrite inject_Z_plus. change (inject_Z 1) with 1%Q.
        change (inject_Z 60) with 60%Q. lra.
Qed.

(** X14: the gate reads the wall clock, not the iteration count: when two
    consecutive readings are more than one interval apart, by any drift
    [d] up to 30 seconds, the endpoints can be probed in both iterations,
    and can be skipped in both. *)
Theorem gate_drift :
  forall d : Q,
    (0 < d)%Q -> (d <= 30)%Q ->
    (api_gate (30 - d) = true /\ api_gate ((30 - d) + (30 + d)) = true)
    /\ (api_gate (60 - d) = false /\ api_gate ((60 - d) + (30 + d)) = false).
Proof.
  intros d P B.
  assert (H60 : (0 < 60)%Z) by lia.
  repeat split.
  - rewrite (api_gate_of_remainder (30 - d) (30 - d)).
    + apply Qlt_bool_true. lra.
    + apply (float_mod_unique _ _ 60 0);
        [lia | lra | change (inject_Z 60) with 60%Q; lra |].
      change (inject_Z 60) with 60%Q. change (inject_Z 0) with 0%Q. lra.
  - rewrite (api_gate_of_remainder _ 0).
    + reflexivity.
    + apply (float_mod_unique _ _ 60 1);
        [lia | lra | reflexivity |].
      change (inject_Z 60) with 60%Q. change (inject_Z 1) with 1%Q. lra.
  - rewrite (api_gate_of_remainder (60 - d) (60 - d)).
    + apply Qlt_bool_false. lra.
    + apply (float_mod_unique _ _ 60 0);
        [lia | lra | change (inject_Z 60) with 60%Q; lra |].
      change (inject_Z 60) with 60%Q. change (inject_Z 0) with 0%Q. lra.
  - rewrite (api_gate_of_remainder _ 30).
    + reflexivity.
    + apply (float_mod_unique _ _ 60 1);
        [lia | lra | reflexivity |].
      change (inject_Z 60) with 60%Q. change (inject_Z 1) with 1%Q. lra.
Qed.

Lemma gate_drift_witness :
  (api_gate (30 - (2 # 10)) = true /\ api_gate ((30 - (2 # 10)) + (30 + (2 # 10))) = true)
  /\ (api_gate (60 - (2 # 10)) = false
      /\ api_gate ((60 - (2 # 10)) + (30 + (2 # 10))) = false).
Proof. apply gate_drift; lra. Defined.

End GateArithmetic.

(** * Further properties of the poller: the loop *)
Section LoopStructure.
Import HealthPoller Observations Samples.

Lemma bind_ret_l {A B} (a : A) (k : A -> M B) : bind (ret a) k = k a.
Proof. unfold ret, bind. destruct (k a); reflexivity. Qed.

Lemma bind_assoc {A B C} (m : M A) (f : A -> M B) (g : B -> M C) :
  bind (bind m f) g = bind m (fun a => bind (f a) g).
Proof.
  destruct m as [[a | e] tr]; [| reflexivity].
  simpl. destruct (f a) as [[b | e] tr']; simpl; [| reflexivity].
  destruct (g b) as [r tr'']. now rewrite app_assoc.
Qed.

Lemma bind_ext {A B} (m : M A) (k k' : A -> M B) :
  (forall a, k a = k' a) -> bind m k = bind m k'.
Proof.
  intros H. destruct m as [[a | e] tr]; [| reflexivity].
  simpl. now rewrite H.
Qed.

(** The loop over two stretches of iterations. *)
Lemma loop_append ticks :
  forall ticks' n, loop (ticks ++ ticks') n = bind (loop ticks n) (loop ticks').
Proof.
  induction ticks as [| t ticks IH]; intros ticks' n.
  - change (loop ticks' n = bind (ret n) (loop ticks')).
    now rewrite bind_ret_l.
  - change (bind (iteration t n) (fun n' => loop (ticks ++ ticks') n')
            = bind (bind (iteration t n) (fun n' => loop ticks n')) (loop ticks')).
    rewrite bind_assoc. apply bind_ext. intros n'. apply IH.
Qed.

Lemma probe_step_counter t n :
  is_interrupt (primary t) = false ->
  result (probe_step t n) = Return (if probe_failed t then n + 1 else 0)%Z.
Proof.
  intros P. rewrite probe_step_result. unfold probe_failed.
  destruct (primary t) as [r | [text | text |]]; try discriminate P.
  - rewrite check_stream_accessible_response. simpl.
    destruct (status r =? 200)%Z; reflexivity.
  - reflexivity.
  - reflexivity.
Qed.

Lemma iteration_counter t n :
  interrupted t = false ->
  result (iteration t n) = Return (if probe_failed t then n + 1 else 0)%Z.
Proof.
  intros I. rewrite iteration_result, I. apply probe_step_counter.
  unfold interrupted in I. destruct (is_interrupt (primary t)); [discriminate I | reflexivity].
Qed.

Lemma loop_counter ticks :
  forall n,
    existsb interrupted ticks = false ->
    result (loop ticks n)
    = Return (if forallb probe_failed ticks
              then n + Z.of_nat (length ticks)
              else Z.of_nat (trailing_failures ticks))%Z.
Proof.
  induction ticks as [| t ticks IH] using rev_ind; intros n I.
  - simpl. f_equal. lia.
  - rewrite existsb_app in I. apply orb_false_iff in I as [I It].
    simpl in It. rewrite orb_false_r in It.
    rewrite (loop_append ticks [t] n), result_bind, (IH n I).
    change (loop [t] ?m) with (bind (iteration t m) (fun m' => ret m')).
    rewrite result_bind, (iteration_counter t _ It).
    unfold trailing_failures. rewrite rev_app_distr, forallb_app, length_app.
    simpl. rewrite andb_true_r.
    destruct (probe_failed t); [| rewrite andb_false_r; reflexivity].
    rewrite andb_true_r.
    destruct (forallb probe_failed ticks); simpl; f_equal; lia.
Qed.

Lemma forallb_rev_eq {A} (p : A -> bool) (l : list A) :
  forallb p (rev l) = forallb p l.
Proof.
  induction l as [| a l IH]; [reflexivity |].
  simpl. rewrite forallb_app, IH. simpl. rewrite andb_true_r. apply andb_comm.
Qed.

Lemma trailing_failures_all ticks :
  forallb probe_failed ticks = true ->
  trailing_failures ticks = length ticks.
Proof.
  unfold trailing_failures.
  rewrite <- (length_rev ticks), <- (forallb_rev_eq probe_failed ticks).
  induction (rev ticks) as [| t l IH]; [reflexivity |].
  simpl. destruct (probe_failed t); simpl; [| discriminate].
  intros H. now rewrite IH.
Qed.

(** X16: as long as no Ctrl+C arrives, the counter the loop holds after any
    number of iterations is the number of failed primary probes since the
    last successful one (all of them if none succeeded). *)
Theorem counter_counts_trailing_failures :
  forall ticks,
    existsb interrupted ticks = false ->
    result (loop ticks 0%Z) = Return (Z.of_nat (trailing_failures ticks))
    /\ fst (main ticks) = Running (Z.of_nat (trailing_failures ticks)).
Proof.
  intros ticks I.
  assert (R : result (loop ticks 0%Z) = Return (Z.of_nat (trailing_failures ticks))).
  { rewrite (loop_counter ticks 0%Z I).
    destruct (forallb probe_failed ticks) eqn:A; [| reflexivity].
    now rewrite (trailing_failures_all ticks A). }
  split; [exact R |].
  rewrite main_process, R. reflexivity.
Qed.

Lemma counter_counts_trailing_failures_witness :
  result (loop [down_tick; up_tick; down_tick; missing_tick] 0%Z) = Return 2%Z
  /\ fst (main [down_tick; up_tick; down_tick; missing_tick]) = Running 2.
Proof.
  apply (counter_counts_trailing_failures [down_tick; up_tick; down_tick; missing_tick]).
  reflexivity.
Defined.

End LoopStructure.

Section IterationOutput.
Import HealthPoller Observations Samples.

Lemma endpoint_text_ok answer :
  String.eqb (endpoint_text answer) "OK" = answered_ok answer.
Proof.
  destruct answer as [r | e]; simpl; [| reflexivity].
  destruct (status r =? 200)%Z; reflexivity.
Qed.

Lemma api_step_open t :
  api_gate (time_time t) = true ->
  uninterrupted (api t) = true ->
  api_step t = (Return tt, map Get endpoints ++ map (secondary_line t) endpoints).
Proof.
  intros G U. unfold api_step. rewrite G, (check_api_endpoints_spec _ U).
  unfold endpoints, secondary_line. cbn [map bind for_each].
  destruct (String.eqb (endpoint_text (api t _)) "OK");
    destruct (String.eqb (endpoint_text (api t _)) "OK"); reflexivity.
Qed.

(** X17: when the gate is open and no Ctrl+C arrives, the secondary step
    first fetches every endpoint and only then prints, one line per
    endpoint in the order of the list: an OK line exactly for an endpoint
    that answered 200, and otherwise a WARNING line that carries the last
    path segment of the URL and the recorded text.  With the gate closed
    the step does nothing. *)
Theorem secondary_step_lines :
  forall t,
    (api_gate (time_time t) = false -> api_step t = (Return tt, []))
    /\ (api_gate (time_time t) = true -> uninterrupted (api t) = true ->
        api_step t = (Return tt, map Get endpoints ++ map (secondary_line t) endpoints))
    /\ (forall endpoint,
          secondary_line t endpoint
          = Print (if answered_ok (api t endpoint)
                   then status_line (now_api t endpoint) "OK"
                          ("API endpoint OK: " +:+ last_segment endpoint)
                   else status_line (now_api t endpoint) "WARNING"
                          ("API issue: " +:+ last_segment endpoint +:+ " - "
                           +:+ endpoint_text (api t endpoint)))).
Proof.
  intros t. split; [| split].
  - intros G. unfold api_step. now rewrite G.
  - apply api_step_open.
  - intros endpoint. unfold secondary_line. now rewrite endpoint_text_ok.
Qed.

Lemma secondary_step_lines_witness :
  api_step up_tick = (Return tt, [])
  /\ api_step missing_tick
     = (Return tt,
        [Get "http://localhost:5173/api/space-weather/comprehensive";
         Get "http://localhost:5173/api/solar-wind/current";
         Print (status_line "12:02:16" "WARNING"
                  "API issue: comprehensive - Error: HTTPConnectionPool(host='localhost', port=5173): R");
         Print (status_line "12:02:16" "WARNING" "API issue: current - Status 503")]).
Proof.
  split.
  - apply (proj1 (secondary_step_lines up_tick)). vm_compute. reflexivity.
  - rewrite (proj1 (proj2 (secondary_step_lines missing_tick)));
      vm_compute; reflexivity.
Defined.

Lemma count_events_app p tr tr' :
  count_events p (tr ++ tr') = (count_events p tr + count_events p tr')%nat.
Proof. unfold count_events. now rewrite filter_app, length_app. Qed.

Lemma probe_step_counts t n :
  is_interrupt (primary t) = false ->
  count_events is_primary_get (trace (probe_step t n)) = 1%nat
  /\ count_events is_sleep (trace (probe_step t n)) = 0%nat.
Proof.
  intros P. destruct (check_stream_accessible_returns _ P) as [b [message E]].
  assert (R : result (check_stream_accessible (primary t)) = Return (b, message))
    by now rewrite E.
  destruct b.
  - rewrite (probe_step_ok t n message R). split; reflexivity.
  - rewrite (probe_step_error t n message R).
    destruct (3 <=? n + 1)%Z; split; reflexivity.
Qed.

Lemma api_step_counts t :
  api_gate (time_time t) && negb (uninterrupted (api t)) = false ->
  result (api_step t) = Return tt
  /\ count_events is_primary_get (trace (api_step t)) = 0%nat
  /\ count_events is_sleep (trace (api_step t)) = 0%nat.
Proof.
  intros H. destruct (api_gate (time_time t)) eqn:G.
  - destruct (uninterrupted (api t)) eqn:U; [| discriminate H].
    rewrite (api_step_open t G U). unfold endpoints, secondary_line.
    repeat split.
  - unfold api_step. rewrite G. repeat split.
Qed.

Lemma iteration_counts t n :
  interrupted t = false ->
  count_events is_primary_get (trace (iteration t n)) = 1%nat
  /\ count_events is_sleep (trace (iteration t n)) = 1%nat.
Proof.
  intros I. unfold interrupted in I.
  apply orb_false_iff in I as [I S]. apply orb_false_iff in I as [P A].
  rewrite uninterrupted_existsb in A.
  destruct (probe_step_counts t n P) as [Pg Ps].
  destruct (api_step_counts t A) as [Ar [Ag As]].
  destruct (probe_step_returns t n P) as [n' [R _]].
  unfold iteration.
  rewrite trace_bind, R, trace_bind, Ar, trace_bind.
  destruct (sleep t); [| discriminate S].
  cbn [time_sleep emit result trace fst snd ret app].
  rewrite !count_events_app, Pg, Ps, Ag, As. split; reflexivity.
Qed.

(** X18: no retry and no extra wait: as long as no Ctrl+C arrives, the
    loop fetches the stream page exactly once and sleeps exactly once per
    iteration, whatever the probes answer. *)
Theorem one_probe_one_sleep_per_iteration :
  forall ticks n,
    existsb interrupted ticks = false ->
    count_events is_primary_get (trace (loop ticks n)) = length ticks
    /\ count_events is_sleep (trace (loop ticks n)) = length ticks.
Proof.
  induction ticks as [| t ticks IH]; intros n I; [split; reflexivity |].
  simpl in I. apply orb_false_iff in I as [It I].
  change (loop (t :: ticks) n)
    with (bind (iteration t n) (fun n' => loop ticks n')).
  rewrite trace_bind, (iteration_counter t n It), !count_events_app.
  destruct (iteration_counts t n It) as [-> ->].
  destruct (IH (if probe_failed t then n + 1 else 0)%Z I) as [-> ->].
  split; reflexivity.
Qed.

Lemma one_probe_one_sleep_per_iteration_witness :
  count_events is_primary_get
    (trace (loop [down_tick; up_tick; missing_tick] 0%Z)) = 3%nat
  /\ count_events is_sleep (trace (loop [down_tick; up_tick; missing_tick] 0%Z)) = 3%nat.
Proof.
  apply (one_probe_one_sleep_per_iteration [down_tick; up_tick; missing_tick] 0%Z).
  reflexivity.
Defined.

End IterationOutput.

(** * Further properties: text, the template step, the poller's output *)
Section TextAndOutput.
Import HealthPoller SetupHelper Observations Samples.

Lemma append_nil_r (s : string) : s +:+ EmptyString = s.
Proof.
  induction s as [| c s IH]; [reflexivity |].
  change (String c (s +:+ EmptyString) = String c s). now rewrite IH.
Qed.

Lemma append_assoc (a b c : string) : (a +:+ b) +:+ c = a +:+ b +:+ c.
Proof.
  induction a as [| x a IH]; [reflexivity |].
  change (String x ((a +:+ b) +:+ c) = String x (a +:+ b +:+ c)). now rewrite IH.
Qed.

Lemma str_in_slash_cons (c : ascii) (s : string) :
  str_in "/" (String c s) = Ascii.eqb c "/" || str_in "/" s.
Proof.
  change (str_in "/" (String c s))
    with ((Ascii.eqb "/" c && true) || str_in "/" s).
  now rewrite andb_true_r, (Ascii.eqb_sym "/" c).
Qed.

Lemma str_in_slash_app (a b : string) :
  str_in "/" (a +:+ b) = str_in "/" a || str_in "/" b.
Proof.
  induction a as [| c a IH]; [reflexivity |].
  change (String c a +:+ b) with (String c (a +:+ b)).
  rewrite !str_in_slash_cons, IH. apply orb_assoc.
Qed.

Lemma last_segment_from_plain (s : string) :
  forall acc, str_in "/" s = false -> last_segment_from acc s = acc +:+ s.
Proof.
  induction s as [| c s IH]; intros acc H.
  - simpl. now rewrite append_nil_r.
  - rewrite str_in_slash_cons in H. apply orb_false_iff in H as [Hc Hs].
    simpl. rewrite Hc, (IH _ Hs), append_assoc. reflexivity.
Qed.

Lemma last_segment_from_slash (a b : string) :
  forall acc,
    last_segment_from acc (a +:+ "/" +:+ b) = last_segment_from EmptyString b.
Proof.
  induction a as [| c a IH]; intros acc; [reflexivity |].
  change (String c a +:+ "/" +:+ b) with (String c (a +:+ "/" +:+ b)).
  simpl. destruct (Ascii.eqb c "/"); apply IH.
Qed.

Lemma last_segment_from_clean (s : string) :
  forall acc, str_in "/" acc = false -> str_in "/" (last_segment_from acc s) = false.
Proof.
  induction s as [| c s IH]; intros acc H; [exact H |].
  simpl. destruct (Ascii.eqb c "/") eqn:E.
  - apply IH. reflexivity.
  - apply IH. rewrite str_in_slash_app, H, str_in_slash_cons, E. reflexivity.
Qed.

(** X19: the name shown for an endpoint, [endpoint.split('/')[-1]], is what
    follows the last slash of the URL: the whole text if it has no slash,
    and never a text with a slash in it. *)
Theorem last_segment_after_last_slash :
  (forall s, str_in "/" s = false -> last_segment s = s)
  /\ (forall a b, str_in "/" b = false -> last_segment (a +:+ "/" +:+ b) = b)
  /\ (forall s, str_in "/" (last_segment s) = false).
Proof.
  unfold last_segment. split; [| split].
  - intros s H. now rewrite (last_segment_from_plain s EmptyString H).
  - intros a b H.
    now rewrite last_segment_from_slash, (last_segment_from_plain b EmptyString H).
  - intros s. now apply last_segment_from_clean.
Qed.

Lemma last_segment_after_last_slash_witness :
  last_segment "http://localhost:5173/api/solar-wind/current" = "current"
  /\ last_segment "localhost" = "localhost".
Proof.
  destruct last_segment_after_last_slash as [Hplain [Hslash _]].
  split.
  - apply (Hslash "http://localhost:5173/api/solar-wind" "current"). reflexivity.
  - apply Hplain. reflexivity.
Defined.



(** X21: everything the poller prints is its banner, then the output of
    the iterations, then, only if Ctrl+C arrived, the farewell as the last
    line. *)
Theorem poller_output_shape :
  forall ticks,
    snd (HealthPoller.main ticks)
    = trace banner ++ trace (loop ticks 0%Z)
      ++ (if existsb interrupted ticks then [Print STOPPED] else []).
Proof.
  intros ticks. unfold HealthPoller.main.
  rewrite (M_eta (bind banner _)), result_bind, trace_bind.
  change (result banner) with (@Return unit tt). cbv iota.
  pose proof (loop_result ticks 0%Z) as H.
  destruct (result (loop ticks 0%Z)) as [n | e].
  - rewrite H. cbn [snd]. now rewrite app_nil_r.
  - destruct H as [-> ->]. cbn [snd]. now rewrite app_assoc.
Qed.

End TextAndOutput.
